(** * qutebrowser: configuration files residing on disk

    A shallow embedding of [qutebrowser/config/configfiles.py]: the
    [StateConfig] persisted-state store, the [YamlConfig] override store
    ([autoconfig.yml]), the [ConfigAPI] facade handed to [config.py] and
    [read_config_py], together with the properties of these that the
    specification states. *)

From Stdlib Require Import Ascii.
From stdpp Require Import base option list strings gmap fin_maps fin_sets.

Open Scope string_scope.
Set Warnings "-register-all".

(** ** Python exceptions

    The module dispatches on exception classes in its [except] clauses, so
    an exception is modelled by its class and its message. Only the part of
    the class hierarchy the clauses look at is kept. *)
Module Py.

Inductive exc_class :=
  | FileNotFoundError
  | PermissionError
  | IsADirectoryError
  | OSError
  | YAMLError
  | UnicodeDecodeError
  | ValueError
  | TypeError
  | SyntaxError
  | KeyError
  | ConfigError          (* configexc.Error and its subclasses *)
  | DuplicateSectionError
  | InterpolationError
  | ParsingError         (* the other subclasses of configparser.Error *)
  | RuntimeError         (* stands for any other subclass of Exception *)
  | SystemExit
  | KeyboardInterrupt.

Record exc := Exc { exc_cls : exc_class; exc_msg : string }.

(** [isinstance(e, OSError)] *)
Definition is_OSError (e : exc) : bool :=
  match exc_cls e with
  | FileNotFoundError | PermissionError | IsADirectoryError | OSError => true
  | _ => false
  end.

Definition is_FileNotFoundError (e : exc) : bool :=
  match exc_cls e with FileNotFoundError => true | _ => false end.

Definition is_KeyError (e : exc) : bool :=
  match exc_cls e with KeyError => true | _ => false end.

Definition is_DuplicateSectionError (e : exc) : bool :=
  match exc_cls e with DuplicateSectionError => true | _ => false end.

Definition is_TypeError (e : exc) : bool :=
  match exc_cls e with TypeError => true | _ => false end.

Definition is_YAMLError (e : exc) : bool :=
  match exc_cls e with YAMLError => true | _ => false end.

(** [isinstance(e, (ValueError, TypeError))]; [UnicodeDecodeError] derives
    from [ValueError]. *)
Definition is_ValueError_or_TypeError (e : exc) : bool :=
  match exc_cls e with
  | ValueError | UnicodeDecodeError | TypeError => true
  | _ => false
  end.

Definition is_SyntaxError (e : exc) : bool :=
  match exc_cls e with SyntaxError => true | _ => false end.

(** [isinstance(e, configexc.Error)] *)
Definition is_config_Error (e : exc) : bool :=
  match exc_cls e with ConfigError => true | _ => false end.

(** [isinstance(e, Exception)]: everything but the exit requests, which
    derive from [BaseException] only. *)
Definition is_Exception (e : exc) : bool :=
  match exc_cls e with
  | SystemExit | KeyboardInterrupt => false
  | _ => true
  end.

End Py.

(** ** YAML values

    What [utils.yaml_load] hands back. Mappings are Python dicts; their keys
    are taken to be strings, as option names are. A float is kept as its
    text: this module never computes with one. *)
Inductive yaml :=
  | YNull
  | YBool (b : bool)
  | YInt (n : Z)
  | YFloat (repr : string)
  | YStr (s : string)
  | YSeq (l : list yaml)
  | YMap (m : gmap string yaml).

(** ** configexc

    [ConfigErrorDesc(text, exception, traceback=None)]; the second field is
    an exception object in most places and a plain message in
    [YamlConfig.load]. *)
Inductive cause :=
  | CauseExc (e : Py.exc)
  | CauseMsg (s : string).

Record ConfigErrorDesc := ErrorDesc {
  text : string;
  exception : cause;
  traceback : option string
}.

(** What a function of this module raises: the aggregate
    [configexc.ConfigFileErrors(basename, errors)], or an exception none of
    its [except] clauses matched, which propagates unchanged. *)
Inductive raised :=
  | ConfigFileErrors (basename : string) (errors : list ConfigErrorDesc)
  | Propagated (e : Py.exc).

(** Outcome of a call: a value or a raise. *)
Inductive outcome (A : Type) :=
  | Returns (a : A)
  | Raises (r : raised).
Arguments Returns {A} a.
Arguments Raises {A} r.

(** ** os.path (POSIX flavour) *)
Module os_path.

Definition startswith_sep (p : string) : bool :=
  match p with
  | String c _ => Ascii.eqb c "/"%char
  | EmptyString => false
  end.

Fixpoint endswith_sep (p : string) : bool :=
  match p with
  | EmptyString => false
  | String c EmptyString => Ascii.eqb c "/"%char
  | String _ r => endswith_sep r
  end.

(** [os.path.join(a, b)] *)
Definition join (a b : string) : string :=
  if startswith_sep b then b
  else if (String.eqb a "" || endswith_sep a)%bool then a ++ b
  else a ++ "/" ++ b.

(** The text after the last separator, if there is a separator. *)
Fixpoint after_last_sep (p : string) : option string :=
  match p with
  | EmptyString => None
  | String c r =>
      match after_last_sep r with
      | Some t => Some t
      | None => if Ascii.eqb c "/"%char then Some r else None
      end
  end.

(** [os.path.basename(p)] *)
Definition basename (p : string) : string := default p (after_last_sep p).

End os_path.

(** ** The file system

    Opening or reading a file either raises or yields its content. [writes]
    logs the paths written, newest first. *)
Inductive file :=
  | Unreadable (e : Py.exc)
  | Content (s : string).

Record filesystem := Fs {
  files : gmap string file;
  writes : list string
}.

(** [open(path).read()]; a path with no file raises [FileNotFoundError]. *)
Definition read_file (fs : filesystem) (path : string) : Py.exc + string :=
  match files fs !! path with
  | None => inl (Py.Exc Py.FileNotFoundError path)
  | Some (Unreadable e) => inl e
  | Some (Content s) => inr s
  end.

Definition write_file (path : string) (s : string) (fs : filesystem) : filesystem :=
  {| files := <[path := Content s]> (files fs); writes := path :: writes fs |}.

(** [obj[key]] for a string [key] on a parsed YAML value: [KeyError] on a
    dict without the key, [TypeError] on everything that is not a dict. *)
Definition getitem (obj : yaml) (key : string) : Py.exc + yaml :=
  match obj with
  | YMap m =>
      match m !! key with
      | Some v => inr v
      | None => inl (Py.Exc Py.KeyError key)
      end
  | YNull | YBool _ | YInt _ | YFloat _ =>
      inl (Py.Exc Py.TypeError "object is not subscriptable")
  | YStr _ => inl (Py.Exc Py.TypeError "string indices must be integers")
  | YSeq _ => inl (Py.Exc Py.TypeError "list indices must be integers or slices, not str")
  end.

(** ** configparser.ConfigParser

    The part of the standard library's parser that [StateConfig] uses. A
    parser holds the options of the [DEFAULT] section and the options of
    each named section; a section's view shows its own options and, behind
    them, the defaults. Option names are looked up as they are: the names
    this module passes are lower case already, so [optionxform] leaves them
    alone. *)
Module configparser.

Record ConfigParser := {
  _defaults : gmap string string;
  _sections : gmap string (gmap string string)
}.

Definition default_section : string := "DEFAULT".

Definition empty : ConfigParser := {| _defaults := ∅; _sections := ∅ |}.

(** What interpolation makes of a value: the expanded value, or one of the
    [InterpolationError]s, which are all it raises. *)
Inductive interpolated :=
  | Interpolated (value : string)
  | InterpolationFails (msg : string).

Section configparser.

(** What reading the text of a file into a parser leaves ([parse self
    text]), and what the interpolation of a value makes of it ([before_get
    section option value d], where [d] holds the options visible in the
    section), are the library's own business. *)
Variable parse : ConfigParser → string → Py.exc + ConfigParser.
Variable before_get : string → string → string → gmap string string → interpolated.

(** [read(filename)]: a file that cannot be opened or read is skipped;
    what the parser raises on its text propagates. *)
Definition read (self : ConfigParser) (fs : filesystem) (filename : string)
  : Py.exc + ConfigParser :=
  match read_file fs filename with
  | inl e => if Py.is_OSError e then inr self else inl e
  | inr s =>
      match parse self s with
      | inl e => if Py.is_OSError e then inr self else inl e
      | inr self' => inr self'
      end
  end.

Definition has_section (self : ConfigParser) (section : string) : bool :=
  bool_decide (is_Some (_sections self !! section)).

Definition add_section (self : ConfigParser) (section : string)
  : Py.exc + ConfigParser :=
  if String.eqb section default_section
  then inl (Py.Exc Py.ValueError "Invalid section name")
  else if has_section self section
  then inl (Py.Exc Py.DuplicateSectionError section)
  else inr {| _defaults := _defaults self;
              _sections := <[section := ∅]> (_sections self) |}.

Definition has_option (self : ConfigParser) (section option : string) : bool :=
  if (String.eqb section "" || String.eqb section default_section)%bool
  then bool_decide (is_Some (_defaults self !! option))
  else match _sections self !! section with
       | None => false
       | Some opts =>
           bool_decide (is_Some (opts !! option))
           || bool_decide (is_Some (_defaults self !! option))
       end.

(** [get(section, option)] for a named section that exists. *)
Definition get (self : ConfigParser) (section option : string) : Py.exc + string :=
  match _sections self !! section with
  | None => inl (Py.Exc Py.ParsingError ("No section: " ++ section))
  | Some opts =>
      let d := opts ∪ _defaults self in
      match d !! option with
      | None => inl (Py.Exc Py.ParsingError ("No option: " ++ option))
      | Some value =>
          match before_get section option value d with
          | Interpolated value => inr value
          | InterpolationFails msg => inl (Py.Exc Py.InterpolationError msg)
          end
      end
  end.

(** [remove_option(section, option)] for a named section: whether the
    option was among the section's own. *)
Definition remove_option (self : ConfigParser) (section option : string)
  : Py.exc + (ConfigParser * bool) :=
  match _sections self !! section with
  | None => inl (Py.Exc Py.ParsingError ("No section: " ++ section))
  | Some opts =>
      match opts !! option with
      | Some _ =>
          inr ({| _defaults := _defaults self;
                  _sections := <[section := delete option opts]> (_sections self) |},
               true)
      | None => inr (self, false)
      end
  end.

(** [self[section].pop(key, None)]: the mapping mixin's [pop] on the
    section's view. [value = self[key]] is tried first, and only a
    [KeyError] from it yields the default; [del self[key]] then raises
    [KeyError] when the option was not among the section's own. *)
Definition section_pop (self : ConfigParser) (section key : string)
  : Py.exc + (ConfigParser * option string) :=
  if negb (has_option self section key) then inr (self, None)
  else
    match get self section key with
    | inl e => if Py.is_KeyError e then inr (self, None) else inl e
    | inr value =>
        match remove_option self section key with
        | inl e => inl e
        | inr (self', true) => inr (self', Some value)
        | inr (_, false) => inl (Py.Exc Py.KeyError key)
        end
    end.

End configparser.

Section set.

(** What interpolation makes of a value about to be stored: the value to
    store, or the exception raised for one it does not accept. *)
Variable before_set : string → string → string → Py.exc + string.

(** [self[section][option] = value], that is [set(section, option, value)],
    for a string [value]: an empty value is stored as it is, any other goes
    through [before_set] first. *)
Definition set (self : ConfigParser) (section option value : string)
  : Py.exc + ConfigParser :=
  match (if String.eqb value "" then inr value
         else before_set section option value) with
  | inl e => inl e
  | inr value =>
      if (String.eqb section "" || String.eqb section default_section)%bool
      then inr {| _defaults := <[option := value]> (_defaults self);
                  _sections := _sections self |}
      else
        match _sections self !! section with
        | None => inl (Py.Exc Py.ParsingError ("No section: " ++ section))
        | Some opts =>
            inr {| _defaults := _defaults self;
                   _sections := <[section := <[option := value]> opts]>
                                  (_sections self) |}
        end
  end.

End set.
End configparser.

(** ** StateConfig: the "state" file saving various application state *)
Module StateConfig.
Import configparser.

(** A [StateConfig] is a [ConfigParser] with a file name. *)
Record StateConfig := {
  parser : ConfigParser;
  _filename : string
}.

Section StateConfig.

Variable parse : ConfigParser → string → Py.exc + ConfigParser.
Variable before_get : string → string → string → gmap string string → interpolated.

(** [for sect in ['general', 'geometry']:
        try: self.add_section(sect)
        except configparser.DuplicateSectionError: pass] *)
Fixpoint add_sections (self : ConfigParser) (sects : list string)
  : Py.exc + ConfigParser :=
  match sects with
  | [] => inr self
  | sect :: sects =>
      match add_section self sect with
      | inr self' => add_sections self' sects
      | inl e =>
          if Py.is_DuplicateSectionError e then add_sections self sects
          else inl e
      end
  end.

(** What one round of that loop comes to: the section is created only if
    it is not there yet. *)
Definition ensure_section (sect : string) (sections : gmap string (gmap string string))
  : gmap string (gmap string string) :=
  if bool_decide (is_Some (sections !! sect)) then sections
  else <[sect := ∅]> sections.

Definition deleted_keys : list string := ["fooled"; "backend-warning-shown"].

(** [for key in deleted_keys: self['general'].pop(key, None)] *)
Fixpoint pop_keys (self : ConfigParser) (keys : list string)
  : Py.exc + ConfigParser :=
  match keys with
  | [] => inr self
  | key :: keys =>
      if negb (has_section self "general")
      then inl (Py.Exc Py.KeyError "general")
      else
        match section_pop before_get self "general" key with
        | inl e => inl e
        | inr (self', _) => pop_keys self' keys
        end
  end.

(** [standarddir.data()] is passed in. An exception leaving [__init__]
    leaves no object behind. *)
Definition __init__ (data_dir : string) (fs : filesystem) : Py.exc + StateConfig :=
  let filename := os_path.join data_dir "state" in
  match read parse empty fs filename with
  | inl e => inl e
  | inr self =>
      match add_sections self ["general"; "geometry"] with
      | inl e => inl e
      | inr self =>
          match pop_keys self deleted_keys with
          | inl e => inl e
          | inr self => inr {| parser := self; _filename := filename |}
          end
      end
  end.

(** [self.write(f)]: the text the parser serializes its sections to. *)
Variable write : ConfigParser → string.

(** [_save] overwrites the state file, whether anything changed or not. *)
Definition _save (self : StateConfig) (fs : filesystem) : filesystem :=
  write_file (_filename self) (write (parser self)) fs.

(** The module-level [state] and what [QSettings.setPath] has been told,
    newest first. *)
Inductive qsettings_format := NativeFormat | IniFormat.
Inductive qsettings_scope := UserScope | SystemScope.

Record globals := {
  state : option StateConfig;
  qsettings_paths : list (qsettings_format * qsettings_scope * string)
}.

Variable before_set : string → string → string → Py.exc + string.

(** [init()], given [qutebrowser.__version__], [standarddir.data()] and
    [standarddir.config(auto=True)]: the globals it leaves and the
    exception that came out of it, if any. [state] is bound as soon as the
    constructor returns, before the version is stored. *)
Definition init (version data_dir config_dir : string) (fs : filesystem)
    (g : globals) : globals * option Py.exc :=
  match __init__ data_dir fs with
  | inl e => (g, Some e)
  | inr st =>
      let g := {| state := Some st; qsettings_paths := qsettings_paths g |} in
      if negb (has_section (parser st) "general")
      then (g, Some (Py.Exc Py.KeyError "general"))
      else
        match set before_set (parser st) "general" "version" version with
        | inl e => (g, Some e)
        | inr self =>
            let st := {| parser := self; _filename := _filename st |} in
            let path := os_path.join config_dir "qsettings" in
            ({| state := Some st;
                qsettings_paths :=
                  foldl (λ paths fmt, (fmt, UserScope, path) :: paths)
                        (qsettings_paths g) [NativeFormat; IniFormat] |},
             None)
        end
  end.

End StateConfig.
End StateConfig.

(** ** YamlConfig: the config stored on disk as a YAML file *)
Module YamlConfig.

Record YamlConfig := {
  _filename : string;
  _values : gmap string yaml;
  _dirty : option bool          (* None, True or False *)
}.

Section YamlConfig.

(** [configdata.DATA] (the known options), [utils.yaml_load] and
    [utils.yaml_dump] live outside this module. *)
Variable DATA : gset string.
Variable yaml_load : string → Py.exc + yaml.
Variable yaml_dump : yaml → string.

Definition VERSION : Z := 1.

(** [standarddir.config(auto=True)] is passed in. *)
Definition __init__ (config_dir : string) : YamlConfig :=
  {| _filename := os_path.join config_dir "autoconfig.yml";
     _values := ∅;
     _dirty := None |}.

Definition __getitem__ (self : YamlConfig) (name : string) : Py.exc + yaml :=
  match _values self !! name with
  | Some v => inr v
  | None => inl (Py.Exc Py.KeyError name)
  end.

Definition __setitem__ (self : YamlConfig) (name : string) (value : yaml) : YamlConfig :=
  {| _filename := _filename self;
     _values := <[name := value]> (_values self);
     _dirty := Some true |}.

Definition __contains__ (self : YamlConfig) (name : string) : bool :=
  bool_decide (is_Some (_values self !! name)).

Definition __iter__ (self : YamlConfig) : list (string * yaml) :=
  map_to_list (_values self).

(** The header [_save] writes: the dedented literal of the source. *)
Definition header : string :=
  "# DO NOT edit this file by hand, qutebrowser will overwrite it.
# Instead, create a config.py - see :help for details.

".

(** [{'config_version': self.VERSION, 'global': self._values}] *)
Definition save_data (self : YamlConfig) : yaml :=
  YMap (<["config_version" := YInt VERSION]> (<["global" := YMap (_values self)]> ∅)).

(** [not self._dirty] *)
Definition not_dirty (self : YamlConfig) : bool :=
  match _dirty self with
  | Some true => false
  | Some false | None => true
  end.

Definition _save (self : YamlConfig) (fs : filesystem) : filesystem :=
  if not_dirty self then fs
  else write_file (_filename self) (header ++ yaml_dump (save_data self)) fs.

(** The loop of [load] that deletes unknown values:
    [for name in list(global_obj): if name not in configdata.DATA: del global_obj[name]] *)
Definition delete_unknown (global_obj : gmap string yaml) : gmap string yaml :=
  foldl (λ obj name, if decide (name ∈ DATA) then obj else delete name obj)
        global_obj (map_to_list global_obj).*1.

Definition is_dict (v : yaml) : option (gmap string yaml) :=
  match v with YMap m => Some m | _ => None end.

Definition load_error (action : string) (c : cause) : raised :=
  ConfigFileErrors "autoconfig.yml" [ErrorDesc action c None].

(** [with open(self._filename, 'r', encoding='utf-8') as f:
        yaml_data = utils.yaml_load(f)] *)
Definition open_yaml_load (fs : filesystem) (path : string) : Py.exc + yaml :=
  match read_file fs path with
  | inl e => inl e
  | inr s => yaml_load s
  end.

(** [load] returns [{}] when the file is missing and [None] at its end.
    The store is threaded through: what [load] leaves of it comes first,
    then how the call ended. *)
Definition load (self : YamlConfig) (fs : filesystem)
  : YamlConfig * outcome (option (gmap string yaml)) :=
  match open_yaml_load fs (_filename self) with
  | inl e =>
      if Py.is_FileNotFoundError e then (self, Returns (Some ∅))
      else if Py.is_OSError e
      then (self, Raises (load_error "While reading" (CauseExc e)))
      else if Py.is_YAMLError e
      then (self, Raises (load_error "While parsing" (CauseExc e)))
      else (self, Raises (Propagated e))
  | inr yaml_data =>
      match getitem yaml_data "global" with
      | inl e =>
          if Py.is_KeyError e
          then (self, Raises (load_error "While loading data"
                  (CauseMsg "Toplevel object does not contain 'global' key")))
          else if Py.is_TypeError e
          then (self, Raises (load_error "While loading data"
                  (CauseMsg "Toplevel object is not a dict")))
          else (self, Raises (Propagated e))
      | inr global_obj =>
          match is_dict global_obj with
          | None =>
              (self, Raises (load_error "While loading data"
                 (CauseMsg "'global' object is not a dict")))
          | Some global_obj =>
              let global_obj := delete_unknown global_obj in
              ({| _filename := _filename self;
                  _values := global_obj;
                  _dirty := Some false |}, Returns None)
          end
      end
  end.

(** A run of [__setitem__] calls, oldest first. *)
Definition set_all (self : YamlConfig) (items : list (string * yaml)) : YamlConfig :=
  foldl (λ self item, __setitem__ self item.1 item.2) self items.

End YamlConfig.
End YamlConfig.

(** ** ConfigAPI and read_config_py

    [config.instance] and [config.key_instance] are process-wide objects;
    the facade only holds references to them. They are kept in the
    [world], next to [sys.path], so that every holder of a reference sees
    the same object. *)
Module ConfigAPI.
Section ConfigAPI.

(** The live configuration model, the key-binding model and the values a
    script passes around come from [qutebrowser.config.config]. A call into
    them leaves a model behind and either returns or raises. *)
Variables Config KeyConfig value : Type.
Variable get_obj : Config → string → Config * (Py.exc + value).
Variable set_obj : Config → string → value → Config * (Py.exc + unit).
Variable keyconfig_bind :
  KeyConfig → string → string → string → bool → KeyConfig * (Py.exc + unit).
Variable keyconfig_unbind : KeyConfig → string → string → KeyConfig * (Py.exc + unit).
Variable update_mutables : Config → Config.

(** [standarddir.config()], Python's [compile] together with what running
    the compiled code does, and [traceback.format_exc()]. *)
Variable config_dir : string.
Variable format_exc : Py.exc → string.

Record world := {
  sys_path : list string;
  instance : Config;
  key_instance : KeyConfig
}.

(** The facade's own attributes; [_config] and [_keyconfig] are
    [instance] and [key_instance] of the world. *)
Record ConfigAPI := {
  load_autoconfig : bool;
  errors : list ConfigErrorDesc
}.

Definition __init__ : ConfigAPI := {| load_autoconfig := true; errors := [] |}.

Definition set_sys_path (p : list string) (w : world) : world :=
  {| sys_path := p; instance := instance w; key_instance := key_instance w |}.

Definition set_instance (c : Config) (w : world) : world :=
  {| sys_path := sys_path w; instance := c; key_instance := key_instance w |}.

Definition set_key_instance (k : KeyConfig) (w : world) : world :=
  {| sys_path := sys_path w; instance := instance w; key_instance := k |}.

Definition append_error (d : ConfigErrorDesc) (self : ConfigAPI) : ConfigAPI :=
  {| load_autoconfig := load_autoconfig self; errors := errors self ++ [d] |}.

(** [text = "While {} '{}'".format(action, name)] *)
Definition while_text (action name : string) : string :=
  "While " ++ action ++ " '" ++ name ++ "'".

(** [with self._handle_error(action, name): <body>], given how the body
    ended. A [configexc.Error] is recorded and swallowed, after which the
    method falls off its end and returns [None]; any other exception goes
    on to the caller. *)
Definition _handle_error {A} (self : ConfigAPI) (action name : string)
    (body : Py.exc + A) : ConfigAPI * (Py.exc + option A) :=
  match body with
  | inr a => (self, inr (Some a))
  | inl e =>
      if Py.is_config_Error e
      then (append_error (ErrorDesc (while_text action name) (CauseExc e) None) self,
            inr None)
      else (self, inl e)
  end.

Definition finalize (w : world) : world :=
  set_instance (update_mutables (instance w)) w.

Definition get (self : ConfigAPI) (w : world) (name : string)
  : ConfigAPI * world * (Py.exc + option value) :=
  let '(c, r) := get_obj (instance w) name in
  let '(self, r) := _handle_error self "getting" name r in
  (self, set_instance c w, r).

Definition set (self : ConfigAPI) (w : world) (name : string) (v : value)
  : ConfigAPI * world * (Py.exc + option unit) :=
  let '(c, r) := set_obj (instance w) name v in
  let '(self, r) := _handle_error self "setting" name r in
  (self, set_instance c w, r).

Definition bind (self : ConfigAPI) (w : world) (key command mode : string)
    (force : bool) : ConfigAPI * world * (Py.exc + option unit) :=
  let '(k, r) := keyconfig_bind (key_instance w) key command mode force in
  let '(self, r) := _handle_error self "binding" key r in
  (self, set_key_instance k w, r).

Definition unbind (self : ConfigAPI) (w : world) (key mode : string)
  : ConfigAPI * world * (Py.exc + option unit) :=
  let '(k, r) := keyconfig_unbind (key_instance w) key mode in
  let '(self, r) := _handle_error self "unbinding" key r in
  (self, set_key_instance k w, r).

(** What the compiled code of a [config.py] does when it is run, as far as
    this module can see it: a tree of calls on the [config] object, of
    assignments to its [load_autoconfig] and to [sys.path], ending when the
    body reaches its end or raises. Each call hands its outcome to the rest
    of the script: the value returned, or the exception that came out of
    the call, which the script may handle or let through. *)
Inductive script :=
  | Done
  | Raise (e : Py.exc)
  | Get (name : string) (k : Py.exc + option value → script)
  | Set_ (name : string) (v : value) (k : Py.exc + option unit → script)
  | Bind (key command mode : string) (force : bool) (k : Py.exc + option unit → script)
  | Unbind (key mode : string) (k : Py.exc + option unit → script)
  | SetLoadAutoconfig (b : bool) (k : script)
  | SetSysPath (f : list string → list string) (k : script).

Variable compile : string → string → Py.exc + script.

(** [exec(code, module.__dict__)]: the state it leaves and the exception
    that came out of it, if any. *)
Fixpoint exec (code : script) (api : ConfigAPI) (w : world)
  : ConfigAPI * world * option Py.exc :=
  match code with
  | Done => (api, w, None)
  | Raise e => (api, w, Some e)
  | Get name k =>
      let '(api, w, r) := get api w name in exec (k r) api w
  | Set_ name v k =>
      let '(api, w, r) := set api w name v in exec (k r) api w
  | Bind key command mode force k =>
      let '(api, w, r) := bind api w key command mode force in exec (k r) api w
  | Unbind key mode k =>
      let '(api, w, r) := unbind api w key mode in exec (k r) api w
  | SetLoadAutoconfig b k =>
      exec k {| load_autoconfig := b; errors := errors api |} w
  | SetSysPath f k =>
      exec k api (set_sys_path (f (sys_path w)) w)
  end.

Definition exists_ (fs : filesystem) (path : string) : bool :=
  bool_decide (is_Some (files fs !! path)).

(** The file [read_config_py] settles on: the one it is given or else the
    default one, and none at all when the default one does not exist. *)
Definition script_file (filename : option string) (fs : filesystem) : option string :=
  match filename with
  | Some filename => Some filename
  | None =>
      let filename := os_path.join config_dir "config.py" in
      if exists_ fs filename then Some filename else None
  end.

(** [if standarddir.config() not in sys.path:
        sys.path.insert(0, standarddir.config())] *)
Definition insert_config_dir (w : world) : world :=
  if bool_decide (config_dir ∈ sys_path w) then w
  else set_sys_path (config_dir :: sys_path w) w.

(** [read_config_py(filename=None)]: the world it leaves, and the facade
    it returns or what it raises. The module object and the container [c]
    it builds for the script hold nothing of their own and are left out. *)
Definition read_config_py (filename : option string) (fs : filesystem) (w : world)
  : world * outcome ConfigAPI :=
  let api := __init__ in
  match script_file filename fs with
  | None => (w, Returns api)
  | Some filename =>
    let old_path := sys_path w in
    let w := insert_config_dir w in
    let basename := os_path.basename filename in
    match read_file fs filename with
    | inl e =>
        if Py.is_OSError e
        then (w, Raises (ConfigFileErrors basename
                           [ErrorDesc ("Error while reading " ++ basename)
                                      (CauseExc e) None]))
        else (w, Raises (Propagated e))
    | inr source =>
        match compile source filename with
        | inl e =>
            if Py.is_ValueError_or_TypeError e
            then (w, Raises (ConfigFileErrors basename
                               [ErrorDesc "Error while compiling" (CauseExc e) None]))
            else if Py.is_SyntaxError e
            then (w, Raises (ConfigFileErrors basename
                               [ErrorDesc "Syntax Error" (CauseExc e)
                                          (Some (format_exc e))]))
            else (w, Raises (Propagated e))
        | inr code =>
            match exec code api w with
            | (api, w, Some e) =>
                if Py.is_Exception e
                then
                  let api := append_error
                    (ErrorDesc "Unhandled exception" (CauseExc e)
                               (Some (format_exc e))) api in
                  let w := set_sys_path old_path w in
                  (finalize w, Returns api)
                else (w, Raises (Propagated e))
            | (api, w, None) =>
                let w := set_sys_path old_path w in
                (finalize w, Returns api)
            end
        end
    end
  end.

End ConfigAPI.

Arguments sys_path {Config KeyConfig} w.
Arguments instance {Config KeyConfig} w.
Arguments key_instance {Config KeyConfig} w.
Arguments set_sys_path {Config KeyConfig} p w.
Arguments set_instance {Config KeyConfig} c w.
Arguments set_key_instance {Config KeyConfig} k w.
Arguments finalize {Config KeyConfig} update_mutables w.
Arguments get {Config KeyConfig value} get_obj self w name.
Arguments set {Config KeyConfig value} set_obj self w name v.
Arguments bind {Config KeyConfig} keyconfig_bind self w key command mode force.
Arguments unbind {Config KeyConfig} keyconfig_unbind self w key mode.
Arguments Done {value}.
Arguments Raise {value} e.
Arguments Get {value} name k.
Arguments Set_ {value} name v k.
Arguments Bind {value} key command mode force k.
Arguments Unbind {value} key mode k.
Arguments SetLoadAutoconfig {value} b k.
Arguments SetSysPath {value} f k.
Arguments insert_config_dir {Config KeyConfig} config_dir w.
Arguments exec {Config KeyConfig value}
  get_obj set_obj keyconfig_bind keyconfig_unbind code api w.
Arguments read_config_py {Config KeyConfig value}
  get_obj set_obj keyconfig_bind keyconfig_unbind update_mutables
  config_dir format_exc compile filename fs w.

End ConfigAPI.

(** ** The configuration models

    [qutebrowser.config.config] is not among these sources. What the
    facade's calls into it do is taken from the description of the facade's
    operations. *)
Module config.
Section config.

(** The values of options, the registry of known options
    ([configdata.DATA]) and the check of a value against the type of its
    option. *)
Variable value : Type.
Variable DATA : gset string.
Variable valid : string → value → bool.

(** Modelled from the spec: the live configuration model ([config.Config],
    not part of these sources), as the mapping from the options to their
    live values. *)
Definition Config : Type := gmap string value.

(** Modelled from the spec: the key-binding model ([config.KeyConfig], not
    part of these sources), as the mapping from a mode and a key to the
    command bound there. *)
Definition KeyConfig : Type := gmap (string * string) string.

(** Modelled from the spec: [Config.get_obj], not part of these sources. It
    "fetches the live resolved value for an option" and fails on a lookup
    failure. It changes nothing. *)
Definition get_obj (c : Config) (name : string) : Config * (Py.exc + value) :=
  match c !! name with
  | Some v => (c, inr v)
  | None => (c, inl (Py.Exc Py.ConfigError ("No option '" ++ name ++ "'")))
  end.

(** Modelled from the spec: [Config.set_obj], not part of these sources. It
    "validates and applies": the name against the registry, the value
    against the option, and only then the change. *)
Definition set_obj (c : Config) (name : string) (v : value) : Config * (Py.exc + unit) :=
  if bool_decide (name ∈ DATA)
  then if valid name v
       then (<[name := v]> c, inr tt)
       else (c, inl (Py.Exc Py.ConfigError ("Invalid value for '" ++ name ++ "'")))
  else (c, inl (Py.Exc Py.ConfigError ("No option '" ++ name ++ "'"))).

(** Modelled from the spec: [KeyConfig.bind], not part of these sources. It
    "registers a key-to-command mapping in the given mode"; "[force]
    permits overwriting an existing binding for that key/mode, absent which
    a conflicting bind is itself an error". *)
Definition keyconfig_bind (k : KeyConfig) (key command mode : string) (force : bool)
  : KeyConfig * (Py.exc + unit) :=
  if (force || negb (bool_decide (is_Some (k !! (mode, key)))))%bool
  then (<[(mode, key) := command]> k, inr tt)
  else (k, inl (Py.Exc Py.ConfigError ("Duplicate key " ++ key))).

(** Modelled from the spec: [KeyConfig.unbind], not part of these sources.
    It "removes a binding", and fails when there is none to remove. *)
Definition keyconfig_unbind (k : KeyConfig) (key mode : string)
  : KeyConfig * (Py.exc + unit) :=
  if bool_decide (is_Some (k !! (mode, key)))
  then (delete (mode, key) k, inr tt)
  else (k, inl (Py.Exc Py.ConfigError ("Unknown binding " ++ key))).

End config.
End config.

(** ** A concrete setting

    A small registry, a parser that knows a handful of documents and a
    stand-in serializer, to run the definitions on. *)
Module Sample.

Definition DATA : gset string := {[ "tabs.position"; "zoom.default" ]}.

Definition doc_global : gmap string yaml :=
  <["tabs.position" := YStr "left"]> (<["zoom.default" := YInt 150]> ∅).

(** [{config_version: 1, global: {tabs.position: left, zoom.default: 150}}] *)
Definition doc : yaml :=
  YMap (<["config_version" := YInt 1]> (<["global" := YMap doc_global]> ∅)).

(** The same with an option that is no longer known. *)
Definition doc_stale : yaml :=
  YMap (<["config_version" := YInt 1]>
        (<["global" := YMap (<["ui.legacy" := YBool true]> doc_global)]> ∅)).

Definition doc_text : string :=
  "config_version: 1
global:
  tabs.position: left
  zoom.default: 150
".

Definition doc_stale_text : string :=
  "config_version: 1
global:
  tabs.position: left
  ui.legacy: true
  zoom.default: 150
".

Definition yaml_load (s : string) : Py.exc + yaml :=
  if String.eqb s doc_text then inr doc
  else if String.eqb s doc_stale_text then inr doc_stale
  else if String.eqb s "- a
- b
" then inr (YSeq [YStr "a"; YStr "b"])
  else if String.eqb s "" then inr YNull
  else inl (Py.Exc Py.YAMLError "could not parse").

Definition yaml_dump (d : yaml) : string :=
  match d with
  | YMap _ => "{...}"
  | YSeq _ => "[...]"
  | _ => "..."
  end.

(** A parser for state files that knows two texts, and an interpolation
    that chokes on a lone percent sign. *)
Definition state_text : string :=
  "[general]
fooled = 1
version = 1.0.0
backend-warning-shown = webkit
".

Definition state_parsed : configparser.ConfigParser :=
  {| configparser._defaults := ∅;
     configparser._sections :=
       {[ "general" := <["fooled" := "1"]> (<["version" := "1.0.0"]>
                        (<["backend-warning-shown" := "webkit"]> ∅)) ]} |}.

Definition parse (self : configparser.ConfigParser) (s : string)
  : Py.exc + configparser.ConfigParser :=
  if String.eqb s "" then inr self
  else if String.eqb s state_text then inr state_parsed
  else inl (Py.Exc Py.ParsingError "Source contains parsing errors").

Definition before_get (section option value : string) (d : gmap string string)
  : configparser.interpolated :=
  if String.eqb value "%" then configparser.InterpolationFails "bad interpolation"
  else configparser.Interpolated value.

Definition data_dir : string := "/home/user/.local/share/qutebrowser".
Definition state_file : string := "/home/user/.local/share/qutebrowser/state".

Definition config_dir : string := "/home/user/.config/qutebrowser".
Definition autoconfig : string := "/home/user/.config/qutebrowser/autoconfig.yml".

Definition store : YamlConfig.YamlConfig := YamlConfig.__init__ config_dir.

Definition disk : filesystem :=
  {| files := {[ autoconfig := Content doc_text ]}; writes := [] |}.

Definition disk_stale : filesystem :=
  {| files := {[ autoconfig := Content doc_stale_text ]}; writes := [] |}.

(** Modelled from the spec: the live configuration model and the
    key-binding model ([qutebrowser.config.config], not part of these
    sources). Setting validates the name against the registry and applies;
    getting an unknown or unset option fails; a binding is keyed by mode and
    key, a second bind of a bound key fails unless forced, and unbinding an
    unbound key fails. Each failure is a [configexc.Error] raised before
    anything is changed. *)
Definition Config : Type := gmap string yaml.
Definition KeyConfig : Type := gmap (string * string) string.

Definition get_obj (c : Config) (name : string) : Config * (Py.exc + yaml) :=
  match c !! name with
  | Some v => (c, inr v)
  | None => (c, inl (Py.Exc Py.ConfigError ("No option '" ++ name ++ "'")))
  end.

Definition set_obj (c : Config) (name : string) (v : yaml) : Config * (Py.exc + unit) :=
  if bool_decide (name ∈ DATA) then (<[name := v]> c, inr tt)
  else (c, inl (Py.Exc Py.ConfigError ("No option '" ++ name ++ "'"))).

Definition keyconfig_bind (k : KeyConfig) (key command mode : string) (force : bool)
  : KeyConfig * (Py.exc + unit) :=
  if (force || negb (bool_decide (is_Some (k !! (mode, key)))))%bool
  then (<[(mode, key) := command]> k, inr tt)
  else (k, inl (Py.Exc Py.ConfigError ("Duplicate key " ++ key))).

Definition keyconfig_unbind (k : KeyConfig) (key mode : string)
  : KeyConfig * (Py.exc + unit) :=
  if bool_decide (is_Some (k !! (mode, key)))
  then (delete (mode, key) k, inr tt)
  else (k, inl (Py.Exc Py.ConfigError ("Unknown binding " ++ key))).

Definition update_mutables (c : Config) : Config := c.

Definition format_exc (e : Py.exc) : string :=
  "Traceback (most recent call last):
" ++ Py.exc_msg e.

(** A script that goes on if a call returns and lets through what it
    raises. *)
Definition unless_raised {A} (k : ConfigAPI.script yaml) (r : Py.exc + A)
  : ConfigAPI.script yaml :=
  match r with
  | inl e => ConfigAPI.Raise e
  | inr _ => k
  end.

Definition script_raise_text : string :=
  "config.set('zoom.default', 200)
raise RuntimeError('boom')
".
Definition script_raise : ConfigAPI.script yaml :=
  ConfigAPI.Set_ "zoom.default" (YInt 200)
    (unless_raised (ConfigAPI.Raise (Py.Exc Py.RuntimeError "boom"))).

Definition script_exit_text : string :=
  "config.set('zoom.default', 200)
import sys
sys.exit(1)
".
Definition script_exit : ConfigAPI.script yaml :=
  ConfigAPI.Set_ "zoom.default" (YInt 200)
    (unless_raised (ConfigAPI.Raise (Py.Exc Py.SystemExit "1"))).

Definition script_unknown_text : string :=
  "config.set('unknown-option', 5)
config.bind('x', 'cmd-a')
config.bind('x', 'cmd-b')
".
Definition script_unknown : ConfigAPI.script yaml :=
  ConfigAPI.Set_ "unknown-option" (YInt 5)
    (unless_raised
       (ConfigAPI.Bind "x" "cmd-a" "normal" false
          (unless_raised
             (ConfigAPI.Bind "x" "cmd-b" "normal" false
                (unless_raised ConfigAPI.Done))))).

Definition script_syntax_text : string := "def
".

(** Python's compiler on the sample texts. *)
Definition compile (source filename : string) : Py.exc + ConfigAPI.script yaml :=
  if String.eqb source script_raise_text then inr script_raise
  else if String.eqb source script_exit_text then inr script_exit
  else if String.eqb source script_unknown_text then inr script_unknown
  else if String.eqb source "" then inr ConfigAPI.Done
  else inl (Py.Exc Py.SyntaxError "invalid syntax").

Definition config_py : string := "/home/user/.config/qutebrowser/config.py".

Definition world : ConfigAPI.world Config KeyConfig :=
  {| ConfigAPI.sys_path := ["/usr/lib/python3.6"; "/usr/lib/python3.6/site-packages"];
     ConfigAPI.instance := {[ "zoom.default" := YInt 100 ]};
     ConfigAPI.key_instance := ∅ |}.

Definition script_disk (text : string) : filesystem :=
  {| files := {[ config_py := Content text ]}; writes := [] |}.

Definition read_config_py :=
  ConfigAPI.read_config_py get_obj set_obj keyconfig_bind keyconfig_unbind
    update_mutables config_dir format_exc compile.

(** A serializer and a parser that agree on the sample document as
    [_save] writes it, header first. *)
Definition yaml_dump_doc (d : yaml) : string :=
  match d with
  | YMap _ => doc_text
  | _ => "null
"
  end.

Definition yaml_load_saved (s : string) : Py.exc + yaml :=
  if String.eqb s (YamlConfig.header ++ doc_text) then inr doc
  else yaml_load s.

(** The sample store with the sample mapping set on it. *)
Definition store_set : YamlConfig.YamlConfig :=
  YamlConfig.set_all store
    [("zoom.default", YInt 150); ("tabs.position", YStr "left")].

(** More state files: one with a foreign section and window geometry, one
    whose [DEFAULT] section has a deprecated key, one with a value that
    interpolation rejects. *)
Definition state_full_text : string :=
  "[general]
version = 0.9.0
fooled = 1

[geometry]
mainwindow = AdnQywAC

[inspector]
window = AdnQywAD
".

Definition state_full_parsed : configparser.ConfigParser :=
  {| configparser._defaults := ∅;
     configparser._sections :=
       {[ "general" := <["version" := "0.9.0"]> (<["fooled" := "1"]> ∅);
          "geometry" := {[ "mainwindow" := "AdnQywAC" ]};
          "inspector" := {[ "window" := "AdnQywAD" ]} ]} |}.

Definition state_saved_text : string :=
  "[general]
version = 1.0.0

[geometry]
mainwindow = AdnQywAC

[inspector]
window = AdnQywAD
".

Definition state_saved_parsed : configparser.ConfigParser :=
  {| configparser._defaults := ∅;
     configparser._sections :=
       {[ "general" := {[ "version" := "1.0.0" ]};
          "geometry" := {[ "mainwindow" := "AdnQywAC" ]};
          "inspector" := {[ "window" := "AdnQywAD" ]} ]} |}.

Definition state_default_text : string :=
  "[DEFAULT]
fooled = 1
".

Definition state_percent_text : string :=
  "[general]
fooled = %
".

Definition parse_more (self : configparser.ConfigParser) (s : string)
  : Py.exc + configparser.ConfigParser :=
  if String.eqb s state_full_text then inr state_full_parsed
  else if String.eqb s state_saved_text then inr state_saved_parsed
  else if String.eqb s state_default_text
  then inr {| configparser._defaults := {[ "fooled" := "1" ]};
              configparser._sections := ∅ |}
  else if String.eqb s state_percent_text
  then inr {| configparser._defaults := ∅;
              configparser._sections := {[ "general" := {[ "fooled" := "%" ]} ]} |}
  else parse self s.

(** A serializer that prints the saved sample state. *)
Definition write_saved (self : configparser.ConfigParser) : string := state_saved_text.

Definition before_set (section option value : string) : Py.exc + string :=
  if String.eqb value "%"
  then inl (Py.Exc Py.ValueError "invalid interpolation syntax")
  else inr value.

Definition state_disk (text : string) : filesystem :=
  {| files := {[ state_file := Content text ]}; writes := [] |}.

(** A configuration model whose calls fail with something that is not a
    [configexc.Error]. *)
Definition get_obj_broken (c : Config) (name : string) : Config * (Py.exc + yaml) :=
  (c, inl (Py.Exc Py.RuntimeError "broken")).

(** Two more state files whose [DEFAULT] section has a deprecated key: one
    with a value that interpolation rejects, one where [general] has the
    key as well. *)
Definition state_default_percent_text : string :=
  "[DEFAULT]
fooled = %
".

Definition state_both_text : string :=
  "[DEFAULT]
fooled = 1

[general]
fooled = 2
".

Definition parse_defaults (self : configparser.ConfigParser) (s : string)
  : Py.exc + configparser.ConfigParser :=
  if String.eqb s state_default_percent_text
  then inr {| configparser._defaults := {[ "fooled" := "%" ]};
              configparser._sections := ∅ |}
  else if String.eqb s state_both_text
  then inr {| configparser._defaults := {[ "fooled" := "1" ]};
              configparser._sections := {[ "general" := {[ "fooled" := "2" ]} ]} |}
  else parse_more self s.

End Sample.

(** * Properties *)

(** ** os.path *)

Lemma after_last_sep_app (d n : string) :
  os_path.after_last_sep n = None →
  os_path.after_last_sep (d ++ "/" ++ n) = Some n.
Proof.
  intros Hn. induction d as [|c d IH].
  - change (os_path.after_last_sep (String "/" n) = Some n).
    simpl. by rewrite Hn.
  - change (os_path.after_last_sep (String c (d ++ "/" ++ n)) = Some n).
    simpl. by rewrite IH.
Qed.

Lemma endswith_sep_app (d : string) :
  os_path.endswith_sep d = true → ∃ d0, d = d0 ++ "/".
Proof.
  induction d as [|c d IH]; [done|]. simpl. destruct d as [|c' d].
  - intros Hc. apply Ascii.eqb_eq in Hc as ->. by exists "".
  - intros [d0 Hd0]%IH. exists (String c d0).
    change (String c (String c' d) = String c (d0 ++ "/")). by rewrite <- Hd0.
Qed.

Lemma string_app_assoc (a b c : string) : (a ++ b) ++ c = a ++ b ++ c.
Proof.
  induction a as [|x a IH]; [done|].
  change (String x ((a ++ b) ++ c) = String x (a ++ b ++ c)). by rewrite IH.
Qed.

(** Joining a directory and a plain file name and taking the base name
    gives the file name back. *)
Lemma basename_join (d n : string) :
  os_path.startswith_sep n = false →
  os_path.after_last_sep n = None →
  os_path.basename (os_path.join d n) = n.
Proof.
  intros Hstart Hn. unfold os_path.basename, os_path.join. rewrite Hstart.
  destruct d as [|c d].
  { change (default n (os_path.after_last_sep n) = n). by rewrite Hn. }
  change (String.eqb (String c d) "") with false. rewrite orb_false_l.
  destruct (os_path.endswith_sep (String c d)) eqn:Hend.
  - apply endswith_sep_app in Hend as [d0 ->].
    by rewrite string_app_assoc, after_last_sep_app.
  - by rewrite after_last_sep_app.
Qed.

(** ** YamlConfig *)
Section YamlConfig_properties.
Import YamlConfig.

Variable DATA : gset string.
Variable yaml_load : string → Py.exc + yaml.
Variable yaml_dump : yaml → string.

Local Abbreviation load := (YamlConfig.load DATA yaml_load).
Local Abbreviation _save := (YamlConfig._save yaml_dump).
Local Abbreviation delete_unknown := (YamlConfig.delete_unknown DATA).

(** Running the deletion loop over any list of names. *)
Lemma lookup_delete_loop (names : list string) (obj : gmap string yaml) (k : string) :
  foldl (λ obj name, if decide (name ∈ DATA) then obj else delete name obj)
        obj names !! k
  = if decide (k ∈ names ∧ k ∉ DATA) then None else obj !! k.
Proof.
  revert obj. induction names as [|name names IH]; intros obj; cbn [foldl].
  - destruct (decide _) as [[H _]|]; [|done]. by apply elem_of_nil in H.
  - rewrite IH.
    destruct (decide (k ∈ names ∧ k ∉ DATA)) as [[H1 H2]|H1];
      destruct (decide (k ∈ name :: names ∧ k ∉ DATA)) as [[H3 H4]|H3]; try done.
    + exfalso. apply H3. split; [by right|done].
    + apply elem_of_cons in H3 as [->|H3]; [|exfalso; by apply H1].
      rewrite decide_False by done. apply lookup_delete_eq.
    + destruct (decide (name ∈ DATA)) as [Hin|Hout]; [done|].
      apply lookup_delete_ne. intros ->. apply H3. split; [by left|done].
Qed.

(** The loop keeps exactly the entries whose name is a known option. *)
Lemma lookup_delete_unknown (global_obj : gmap string yaml) (k : string) :
  delete_unknown global_obj !! k
  = if decide (k ∈ DATA) then global_obj !! k else None.
Proof.
  unfold YamlConfig.delete_unknown. rewrite lookup_delete_loop.
  destruct (decide (k ∈ DATA)) as [Hin|Hout].
  - case_decide as H; [by destruct H|done].
  - case_decide as H; [done|].
    destruct (global_obj !! k) as [v|] eqn:Hk; [|done].
    exfalso. apply H. split; [|done].
    apply list_elem_of_fmap. exists (k, v). split; [done|].
    by apply elem_of_map_to_list.
Qed.

Lemma delete_unknown_filter (global_obj : gmap string yaml) :
  delete_unknown global_obj = filter (λ kv, kv.1 ∈ DATA) global_obj.
Proof.
  apply map_eq. intros k. rewrite lookup_delete_unknown.
  destruct (global_obj !! k) as [v|] eqn:Hk.
  - case_decide.
    + symmetry. by apply map_lookup_filter_Some.
    + symmetry. apply map_lookup_filter_None. right. intros v' Hv'.
      by simplify_eq.
  - case_decide; symmetry; apply map_lookup_filter_None; by left.
Qed.

Lemma delete_unknown_id (global_obj : gmap string yaml) :
  dom global_obj ⊆ DATA → delete_unknown global_obj = global_obj.
Proof.
  intros Hsub. apply map_eq. intros k. rewrite lookup_delete_unknown.
  case_decide as Hk; [done|].
  symmetry. apply not_elem_of_dom. set_solver.
Qed.

Lemma not_dirty_spec (self : YamlConfig) :
  not_dirty self = true ↔ _dirty self ≠ Some true.
Proof. unfold not_dirty. destruct (_dirty self) as [[]|]; naive_solver. Qed.

Lemma _save_clean (self : YamlConfig) (fs : filesystem) :
  _dirty self ≠ Some true → _save self fs = fs.
Proof.
  intros H. unfold YamlConfig._save. by rewrite (proj2 (not_dirty_spec self) H).
Qed.

Lemma _save_dirty (self : YamlConfig) (fs : filesystem) :
  _dirty self = Some true →
  _save self fs
  = write_file (_filename self) (header ++ yaml_dump (save_data self)) fs.
Proof. intros H. unfold YamlConfig._save, not_dirty. by rewrite H. Qed.

(** What [load] does on a document of the expected shape. *)
Lemma load_document (self : YamlConfig) (fs : filesystem)
    (top global_obj : gmap string yaml) :
  open_yaml_load yaml_load fs (_filename self) = inr (YMap top) →
  top !! "global" = Some (YMap global_obj) →
  load self fs
  = ({| _filename := _filename self;
        _values := delete_unknown global_obj;
        _dirty := Some false |}, Returns None).
Proof.
  intros Hopen Hglobal. unfold YamlConfig.load. rewrite Hopen. simpl.
  by rewrite Hglobal.
Qed.

(** Every way [load] can end, with the store it leaves. *)
Lemma load_cases (self : YamlConfig) (fs : filesystem) :
  (∃ e, open_yaml_load yaml_load fs (_filename self) = inl e ∧
        Py.is_FileNotFoundError e = true ∧
        load self fs = (self, Returns (Some ∅)))
  ∨ (∃ e, open_yaml_load yaml_load fs (_filename self) = inl e ∧
        Py.is_FileNotFoundError e = false ∧ Py.is_OSError e = true ∧
        load self fs = (self, Raises (load_error "While reading" (CauseExc e))))
  ∨ (∃ e, open_yaml_load yaml_load fs (_filename self) = inl e ∧
        Py.is_FileNotFoundError e = false ∧ Py.is_OSError e = false ∧
        Py.is_YAMLError e = true ∧
        load self fs = (self, Raises (load_error "While parsing" (CauseExc e))))
  ∨ (∃ e, open_yaml_load yaml_load fs (_filename self) = inl e ∧
        Py.is_FileNotFoundError e = false ∧ Py.is_OSError e = false ∧
        Py.is_YAMLError e = false ∧
        load self fs = (self, Raises (Propagated e)))
  ∨ (∃ top, open_yaml_load yaml_load fs (_filename self) = inr (YMap top) ∧
        top !! "global" = None ∧
        load self fs = (self, Raises (load_error "While loading data"
          (CauseMsg "Toplevel object does not contain 'global' key"))))
  ∨ (∃ v, open_yaml_load yaml_load fs (_filename self) = inr v ∧
        is_dict v = None ∧
        load self fs = (self, Raises (load_error "While loading data"
          (CauseMsg "Toplevel object is not a dict"))))
  ∨ (∃ top g, open_yaml_load yaml_load fs (_filename self) = inr (YMap top) ∧
        top !! "global" = Some g ∧ is_dict g = None ∧
        load self fs = (self, Raises (load_error "While loading data"
          (CauseMsg "'global' object is not a dict"))))
  ∨ (∃ top global_obj,
        open_yaml_load yaml_load fs (_filename self) = inr (YMap top) ∧
        top !! "global" = Some (YMap global_obj) ∧
        load self fs
        = ({| _filename := _filename self;
              _values := delete_unknown global_obj;
              _dirty := Some false |}, Returns None)).
Proof.
  unfold YamlConfig.load.
  destruct (open_yaml_load yaml_load fs (_filename self)) as [e|v] eqn:Hopen.
  - destruct (Py.is_FileNotFoundError e) eqn:Hnf; [left; eauto|].
    destruct (Py.is_OSError e) eqn:Hos; [right; left; eauto|].
    destruct (Py.is_YAMLError e) eqn:Hy; [do 2 right; left; eauto 10|].
    do 3 right; left; eauto 10.
  - destruct v as [| | | | | |top]; simpl;
      try (do 5 right; left; eexists; split; [done|by split]).
    destruct (top !! "global") as [g|] eqn:Hg; simpl.
    + destruct g as [| | | | | |global_obj]; simpl;
        try (do 6 right; left; eexists _, _; split; [done|]; split; [done|by split]).
      do 7 right. eauto.
    + do 4 right; left. eauto.
Qed.

(** C2. [load] raises the aggregate [ConfigFileErrors], keyed by
    [autoconfig.yml], the base name of the file the store reads, and
    carrying one descriptor, exactly when opening or
    reading the file fails with an I/O error other than the file missing,
    the text is not valid YAML, the parsed top-level value is a mapping
    without a [global] key, the top-level value is not a mapping, or the
    [global] value is not a mapping. A missing file is not an error: [load]
    returns, leaving the store as it was. *)
Theorem load_raises_ConfigFileErrors (self : YamlConfig) (fs : filesystem) :
  ((∃ errors, (load self fs).2 = Raises (ConfigFileErrors "autoconfig.yml" errors))
   ↔ (∃ e, open_yaml_load yaml_load fs (_filename self) = inl e ∧
           Py.is_FileNotFoundError e = false ∧
           (Py.is_OSError e = true ∨ Py.is_YAMLError e = true))
     ∨ (∃ v, open_yaml_load yaml_load fs (_filename self) = inr v ∧
           ((∃ top, v = YMap top ∧ top !! "global" = None)
            ∨ is_dict v = None
            ∨ (∃ top g, v = YMap top ∧ top !! "global" = Some g ∧
                        is_dict g = None))))
  ∧ (∀ name errors,
       (load self fs).2 = Raises (ConfigFileErrors name errors) →
       name = "autoconfig.yml" ∧ length errors = 1)
  ∧ (∀ e, open_yaml_load yaml_load fs (_filename self) = inl e →
          Py.is_FileNotFoundError e = true →
          load self fs = (self, Returns (Some ∅)))
  ∧ (files fs !! _filename self = None →
     load self fs = (self, Returns (Some ∅)))
  ∧ (∀ config_dir,
       os_path.basename (_filename (__init__ config_dir)) = "autoconfig.yml").
Proof.
  assert (Hmissing : ∀ e, open_yaml_load yaml_load fs (_filename self) = inl e →
            Py.is_FileNotFoundError e = true →
            load self fs = (self, Returns (Some ∅))).
  { intros e He Hnf. unfold YamlConfig.load. by rewrite He, Hnf. }
  split; [|split; [|split; [|split]]].
  - destruct (load_cases self fs)
      as [(e & Ho & Hnf & ->)|[(e & Ho & Hnf & Hos & ->)|[(e & Ho & Hnf & Hos & Hy & ->)|
          [(e & Ho & Hnf & Hos & Hy & ->)|[(top & Ho & Hg & ->)|[(v & Ho & Hd & ->)|
          [(top & g & Ho & Hg & Hd & ->)|(top & g & Ho & Hg & ->)]]]]]]];
      simpl; rewrite Ho; unfold load_error.
    + split; [by intros [? ?]|]. intros [(e' & ? & ? & ?)|(v & ? & ?)]; simplify_eq; congruence.
    + split; [|eauto]. intros _. left. eauto.
    + split; [|eauto]. intros _. left. eauto 10.
    + split; [by intros [? ?]|].
      intros [(e' & ? & ? & [?|?])|(v & ? & ?)]; simplify_eq; congruence.
    + split; [|eauto]. intros _. right. eauto 10.
    + split; [|eauto]. intros _. right. eauto 10.
    + split; [|eauto]. intros _. right. eauto 10.
    + split; [by intros [? ?]|].
      intros [(e' & ? & ?)|(v & ? & [(top' & ? & ?)|[?|(top' & g' & ? & ? & ?)]])];
        simplify_eq; simpl in *; congruence.
  - intros name errors.
    destruct (load_cases self fs)
      as [(e & Ho & Hnf & ->)|[(e & Ho & Hnf & Hos & ->)|[(e & Ho & Hnf & Hos & Hy & ->)|
          [(e & Ho & Hnf & Hos & Hy & ->)|[(top & Ho & Hg & ->)|[(v & Ho & Hd & ->)|
          [(top & g & Ho & Hg & Hd & ->)|(top & g & Ho & Hg & ->)]]]]]]];
      simpl; unfold load_error; intros H; by simplify_eq.
  - exact Hmissing.
  - intros Hnone. apply (Hmissing (Py.Exc Py.FileNotFoundError (_filename self))); [|done].
    unfold open_yaml_load, read_file. by rewrite Hnone.
  - intros config_dir. by apply basename_join.
Qed.

(** The store [load] leaves, by the way the call ended. *)
Lemma load_inv (self : YamlConfig) (fs : filesystem) :
  match load self fs with
  | (self', Raises _) => self' = self
  | (self', Returns (Some _)) => self' = self
  | (self', Returns None) =>
      ∃ top global_obj,
        open_yaml_load yaml_load fs (_filename self) = inr (YMap top) ∧
        top !! "global" = Some (YMap global_obj) ∧
        self' = {| _filename := _filename self;
                   _values := delete_unknown global_obj;
                   _dirty := Some false |}
  end.
Proof.
  destruct (load_cases self fs)
    as [(e & Ho & Hnf & ->)|[(e & Ho & Hnf & Hos & ->)|[(e & Ho & Hnf & Hos & Hy & ->)|
        [(e & Ho & Hnf & Hos & Hy & ->)|[(top & Ho & Hg & ->)|[(v & Ho & Hd & ->)|
        [(top & g & Ho & Hg & Hd & ->)|(top & g & Ho & Hg & ->)]]]]]]]; try done.
  by exists top, g.
Qed.

(** C10. [load] is atomic on the store: when it raises (I/O error, parse
    error, wrong document shape, or any exception it lets through) and when
    it returns early on a missing file, the store is exactly what it was;
    only a load that succeeds replaces the mapping, by the pruned [global]
    mapping of the document and nothing of the old one, and clears the
    dirty flag. *)
Theorem load_atomic (self : YamlConfig) (fs : filesystem) :
  match load self fs with
  | (self', Raises _) => self' = self
  | (self', Returns (Some _)) => self' = self
  | (self', Returns None) =>
      ∃ top global_obj,
        open_yaml_load yaml_load fs (_filename self) = inr (YMap top) ∧
        top !! "global" = Some (YMap global_obj) ∧
        self' = {| _filename := _filename self;
                   _values := filter (λ kv, kv.1 ∈ DATA) global_obj;
                   _dirty := Some false |}
  end.
Proof.
  pose proof (load_inv self fs) as H.
  destruct (load self fs) as [self' [[?|]|?]]; try done.
  destruct H as (top & global_obj & Hopen & Hglobal & ->).
  exists top, global_obj. by rewrite delete_unknown_filter.
Qed.

(** C5. [_save] writes nothing while the dirty flag is unset, be it [None]
    as in a fresh store or [False] as after a successful [load]; every
    [__setitem__] sets the flag, and a [_save] that follows it writes the
    file. *)
Theorem save_writes_iff_dirty (self : YamlConfig) (fs fs' : filesystem)
    (name : string) (value : yaml) :
  (_dirty self ≠ Some true → _save self fs' = fs')
  ∧ (∀ config_dir, _save (__init__ config_dir) fs' = fs')
  ∧ ((load self fs).2 = Returns None → _save (load self fs).1 fs' = fs')
  ∧ _dirty (__setitem__ self name value) = Some true
  ∧ _save (__setitem__ self name value) fs'
    = write_file (_filename self)
        (header ++ yaml_dump (save_data (__setitem__ self name value))) fs'
  ∧ writes (_save (__setitem__ self name value) fs') = _filename self :: writes fs'
  ∧ ∀ items, _dirty (set_all self (items ++ [(name, value)])) = Some true.
Proof.
  split; [apply _save_clean|].
  split; [intros; by apply _save_clean|].
  split; [|rewrite _save_dirty by done; do 3 (split; [done|]);
           intros items; unfold set_all; by rewrite foldl_snoc].
  intros Hret. apply _save_clean.
  pose proof (load_inv self fs) as H.
  destruct (load self fs) as [self' [[?|]|?]]; simplify_eq/=.
  by destruct H as (? & ? & _ & _ & ->).
Qed.

(** The name a run of sets never names stays out of the mapping. *)
Lemma set_all_lookup_ne (self : YamlConfig) (items : list (string * yaml))
    (key : string) :
  Forall (λ item, item.1 ≠ key) items →
  _values (set_all self items) !! key = _values self !! key.
Proof.
  revert self. induction items as [|[n v] items IH]; intros self Hne; [done|].
  apply Forall_cons in Hne as [Hn Hne]. simpl in *.
  rewrite IH by done. simpl. by rewrite lookup_insert_ne.
Qed.

Lemma set_all_filename (self : YamlConfig) (items : list (string * yaml)) :
  _filename (set_all self items) = _filename self.
Proof.
  revert self. induction items as [|[n v] items IH]; intros self; [done|].
  simpl. by rewrite IH.
Qed.

(** C4. After a [load] that read a document every key of the mapping is a
    known option, and so it is after any [load] that returns on a fresh
    store. A key of the document's [global] mapping that the registry
    does not know raises no error, is missing from the mapping, and is not
    written back: the [_save] right after the load writes nothing, and after
    any sets to other names [_save] writes nothing or a document whose
    [global] mapping does not have the key. *)
Theorem load_drops_unknown (self : YamlConfig) (fs : filesystem) :
  ((load self fs).2 = Returns None →
   ∀ name, is_Some (_values (load self fs).1 !! name) → name ∈ DATA)
  ∧ (∀ config_dir r,
       (load (__init__ config_dir) fs).2 = Returns r →
       ∀ name, is_Some (_values (load (__init__ config_dir) fs).1 !! name) →
               name ∈ DATA)
  ∧ ∀ top global_obj,
      open_yaml_load yaml_load fs (_filename self) = inr (YMap top) →
      top !! "global" = Some (YMap global_obj) →
      (load self fs).2 = Returns None
      ∧ ∀ key, key ∉ DATA →
          _values (load self fs).1 !! key = None
          ∧ ∀ items fs',
              Forall (λ item, item.1 ≠ key) items →
              let self' := set_all (load self fs).1 items in
              (items = [] → _save self' fs' = fs')
              ∧ (_save self' fs' = fs'
                 ∨ ∃ values,
                     _save self' fs'
                     = write_file (_filename self)
                         (header ++ yaml_dump
                            (YMap (<["config_version" := YInt VERSION]>
                                   (<["global" := YMap values]> ∅)))) fs'
                     ∧ values !! key = None).
Proof.
  assert (Hloaded : ∀ self0, (load self0 fs).2 = Returns None →
            ∀ name, is_Some (_values (load self0 fs).1 !! name) → name ∈ DATA).
  { intros self0 Hret name Hname.
    pose proof (load_inv self0 fs) as H.
    destruct (load self0 fs) as [self' [[?|]|?]]; simplify_eq/=.
    destruct H as (top & global_obj & _ & _ & ->). simpl in Hname.
    rewrite lookup_delete_unknown in Hname.
    case_decide; [done|]. by apply is_Some_None in Hname. }
  split; [apply Hloaded|]. split.
  - intros config_dir [m|] Hret; [|by apply Hloaded].
    intros name Hname. exfalso.
    pose proof (load_inv (__init__ config_dir) fs) as H.
    destruct (load (__init__ config_dir) fs) as [self' [[?|]|?]]; simplify_eq/=.
    rewrite lookup_empty in Hname. by apply is_Some_None in Hname.
  - intros top global_obj Hopen Hglobal.
    rewrite (load_document _ _ _ _ Hopen Hglobal). simpl. split; [done|].
    intros key Hkey.
    assert (Hgone : delete_unknown global_obj !! key = None).
    { rewrite lookup_delete_unknown. by rewrite decide_False. }
    split; [done|]. intros items fs' Hitems.
    set (self' := set_all _ items). split.
    + intros ->. by apply _save_clean.
    + destruct (decide (_dirty self' = Some true)) as [Hd|Hd].
      * right. exists (_values self'). split.
        -- rewrite (_save_dirty _ _ Hd). unfold self'.
           by rewrite set_all_filename.
        -- unfold self'. by rewrite set_all_lookup_ne.
      * left. by apply _save_clean.
Qed.

(** C3, as the code has it. For a document whose top level is a mapping
    with a [global] mapping all of whose keys are known options, [load]
    leaves the mapping equal to the document's [global] mapping and the
    dirty flag clear; the [_save] right after it writes nothing, so the file
    keeps the document; and once the store is dirty, here by setting a key
    to the value it was loaded with, [_save] writes a document whose
    [global] mapping is that of the loaded document and whose
    [config_version] is [VERSION]. *)
Theorem load_save_round_trip (self : YamlConfig) (fs : filesystem)
    (top global_obj : gmap string yaml) :
  open_yaml_load yaml_load fs (_filename self) = inr (YMap top) →
  top !! "global" = Some (YMap global_obj) →
  dom global_obj ⊆ DATA →
  (load self fs).2 = Returns None
  ∧ _values (load self fs).1 = global_obj
  ∧ _dirty (load self fs).1 = Some false
  ∧ _save (load self fs).1 fs = fs
  ∧ ∀ name value,
      global_obj !! name = Some value →
      _save (__setitem__ (load self fs).1 name value) fs
      = write_file (_filename self)
          (header ++ yaml_dump
             (YMap (<["config_version" := YInt VERSION]>
                    (<["global" := YMap global_obj]> ∅)))) fs.
Proof.
  intros Hopen Hglobal Hknown.
  rewrite (load_document _ _ _ _ Hopen Hglobal). simpl.
  rewrite (delete_unknown_id _ Hknown).
  do 3 (split; [done|]). split; [by apply _save_clean|].
  intros name value Hname. rewrite _save_dirty by done.
  unfold save_data. simpl. by rewrite (insert_id global_obj name value Hname).
Qed.

End YamlConfig_properties.

(** The sample store on the sample documents. *)
Example sample_load_stale :
  YamlConfig.load Sample.DATA Sample.yaml_load Sample.store Sample.disk_stale
  = ({| YamlConfig._filename := Sample.autoconfig;
        YamlConfig._values := Sample.doc_global;
        YamlConfig._dirty := Some false |}, Returns None).
Proof. vm_compute. reflexivity. Qed.

Example sample_load_sequence :
  YamlConfig.load Sample.DATA Sample.yaml_load Sample.store
    {| files := {[ Sample.autoconfig := Content "- a
- b
" ]}; writes := [] |}
  = (Sample.store,
     Raises (ConfigFileErrors "autoconfig.yml"
       [ErrorDesc "While loading data" (CauseMsg "Toplevel object is not a dict") None])).
Proof. vm_compute. reflexivity. Qed.

Example sample_load_missing :
  YamlConfig.load Sample.DATA Sample.yaml_load Sample.store
    {| files := ∅; writes := [] |}
  = (Sample.store, Returns (Some ∅)).
Proof. vm_compute. reflexivity. Qed.

(** C3 as it is worded does not hold: the sample document is valid, all its
    keys are known and its version is [VERSION], yet the [_save] that
    follows its [load] writes no document at all. *)
Lemma save_after_load_writes_nothing :
  YamlConfig.open_yaml_load Sample.yaml_load Sample.disk Sample.autoconfig = inr Sample.doc
  ∧ getitem Sample.doc "global" = inr (YMap Sample.doc_global)
  ∧ getitem Sample.doc "config_version" = inr (YInt YamlConfig.VERSION)
  ∧ dom Sample.doc_global ⊆ Sample.DATA
  ∧ writes (YamlConfig._save Sample.yaml_dump
              (YamlConfig.load Sample.DATA Sample.yaml_load
                 Sample.store Sample.disk).1 Sample.disk) = []
  ∧ ¬ ∃ doc,
        YamlConfig._save Sample.yaml_dump
          (YamlConfig.load Sample.DATA Sample.yaml_load
             Sample.store Sample.disk).1 Sample.disk
        = write_file Sample.autoconfig
            (YamlConfig.header ++ Sample.yaml_dump doc) Sample.disk
        ∧ getitem doc "global" = inr (YMap Sample.doc_global)
        ∧ getitem doc "config_version" = inr (YInt YamlConfig.VERSION).
Proof.
  split; [by vm_compute|]. split; [by vm_compute|]. split; [by vm_compute|].
  split; [compute_done|]. split; [by vm_compute|].
  intros (doc & Hsave & _).
  apply (f_equal writes) in Hsave. vm_compute in Hsave. discriminate.
Qed.

Lemma load_save_round_trip_witness :
  YamlConfig.open_yaml_load Sample.yaml_load Sample.disk
    (YamlConfig._filename Sample.store) = inr Sample.doc
  ∧ YamlConfig._save Sample.yaml_dump
      (YamlConfig.__setitem__
         (YamlConfig.load Sample.DATA Sample.yaml_load Sample.store Sample.disk).1
         "zoom.default" (YInt 150)) Sample.disk
    = write_file Sample.autoconfig
        (YamlConfig.header ++ Sample.yaml_dump Sample.doc) Sample.disk.
Proof.
  split; [by vm_compute|].
  refine (proj2 (proj2 (proj2 (proj2
    (load_save_round_trip Sample.DATA Sample.yaml_load Sample.yaml_dump
       Sample.store Sample.disk
       (<["config_version" := YInt 1]> (<["global" := YMap Sample.doc_global]> ∅))
       Sample.doc_global _ _ _)))) "zoom.default" (YInt 150) _).
  - by vm_compute.
  - by vm_compute.
  - compute_done.
  - by vm_compute.
Defined.

(** ** StateConfig *)
Section StateConfig_properties.
Import configparser StateConfig.

Variable parse : ConfigParser → string → Py.exc + ConfigParser.
Variable before_get : string → string → string → gmap string string → interpolated.

Local Abbreviation section_pop := (configparser.section_pop before_get).
Local Abbreviation pop_keys := (StateConfig.pop_keys before_get).
Local Abbreviation __init__ := (StateConfig.__init__ parse before_get).

Lemma ensure_section_lookup (sect s : string) (sections : gmap string (gmap string string)) :
  ensure_section sect sections !! s
  = match sections !! s with
    | Some opts => Some opts
    | None => if decide (s = sect) then Some ∅ else None
    end.
Proof.
  unfold ensure_section. case_bool_decide as Hsect.
  - destruct (sections !! s) eqn:Hs; [done|].
    case_decide as Heq; [|done]. subst s. rewrite Hs in Hsect.
    by apply is_Some_None in Hsect.
  - destruct (decide (s = sect)) as [->|Hne].
    + rewrite lookup_insert_eq. destruct (sections !! sect) eqn:Hs; [|done].
      exfalso. eauto.
    + rewrite lookup_insert_ne by done. by destruct (sections !! s).
Qed.

Lemma add_section_ensure (self : ConfigParser) (sect : string) :
  String.eqb sect default_section = false →
  add_section self sect
  = if has_section self sect
    then inl (Py.Exc Py.DuplicateSectionError sect)
    else inr {| _defaults := _defaults self;
                _sections := ensure_section sect (_sections self) |}.
Proof.
  intros Hsect. unfold add_section, ensure_section, has_section. rewrite Hsect.
  by case_bool_decide.
Qed.

Lemma ensure_section_present (self : ConfigParser) (sect : string) :
  has_section self sect = true →
  ensure_section sect (_sections self) = _sections self.
Proof. unfold has_section, ensure_section. by intros ->. Qed.

(** The loop over ['general', 'geometry'] never raises: a section that is
    there already is left alone. *)
Lemma add_sections_general_geometry (self : ConfigParser) :
  add_sections self ["general"; "geometry"]
  = inr {| _defaults := _defaults self;
           _sections := ensure_section "geometry"
                          (ensure_section "general" (_sections self)) |}.
Proof.
  unfold add_sections. rewrite add_section_ensure by done.
  destruct (has_section self "general") eqn:H1; simpl.
  - rewrite (ensure_section_present _ _ H1). rewrite add_section_ensure by done.
    destruct (has_section self "geometry") eqn:H2; simpl; [|done].
    rewrite (ensure_section_present _ _ H2). by destruct self.
  - rewrite add_section_ensure by done.
    set (p1 := {| _defaults := _defaults self;
                  _sections := ensure_section "general" (_sections self) |}).
    destruct (has_section p1 "geometry") eqn:H2; simpl; [|done].
    pose proof (ensure_section_present p1 _ H2) as E. simpl in E. by rewrite E.
Qed.

(** [get] never raises [KeyError]. *)
Lemma get_not_KeyError (self : ConfigParser) (section key : string) (e : Py.exc) :
  get before_get self section key = inl e → Py.is_KeyError e = false.
Proof.
  unfold get. destruct (_sections self !! section) as [opts|]; [|by intros [= <-]].
  destruct (_ !! key) as [value|]; [|by intros [= <-]].
  destruct (before_get _ _ _ _); [done|by intros [= <-]].
Qed.

(** A [pop] on the [general] section that returns has taken the key out of
    the section's own options and touched nothing else. *)
Lemma section_pop_general (self self' : ConfigParser) (key : string) (r : option string) :
  section_pop self "general" key = inr (self', r) →
  _defaults self' = _defaults self
  ∧ _sections self' !! "general" = delete key <$> _sections self !! "general"
  ∧ ∀ sect, sect ≠ "general" → _sections self' !! sect = _sections self !! sect.
Proof.
  unfold configparser.section_pop.
  destruct (has_option self "general" key) eqn:Hhas; simpl.
  - destruct (get before_get self "general" key) as [e|value] eqn:Hget.
    { rewrite (get_not_KeyError _ _ _ _ Hget). done. }
    unfold remove_option.
    destruct (_sections self !! "general") as [opts|] eqn:Hsect; [|done].
    destruct (opts !! key) eqn:Hkey; [|done].
    intros [= <- <-]. simpl. split; [done|]. split.
    + by rewrite lookup_insert_eq.
    + intros sect Hne. by rewrite lookup_insert_ne.
  - intros [= <- <-]. split; [done|]. split; [|done].
    unfold has_option in Hhas. simpl in Hhas.
    destruct (_sections self !! "general") as [opts|]; [|done]. simpl.
    apply orb_false_iff in Hhas as [Hown _].
    apply bool_decide_eq_false in Hown.
    rewrite delete_id; [done|]. by apply eq_None_not_Some.
Qed.

(** The loop over [deleted_keys], when it completes. *)
Lemma pop_keys_general (keys : list string) (self self' : ConfigParser) :
  pop_keys self keys = inr self' →
  _defaults self' = _defaults self
  ∧ _sections self' !! "general"
    = (λ opts, foldl (λ opts key, delete key opts) opts keys)
        <$> _sections self !! "general"
  ∧ ∀ sect, sect ≠ "general" → _sections self' !! sect = _sections self !! sect.
Proof.
  revert self. induction keys as [|key keys IH]; intros self; simpl.
  - intros [= <-]. split; [done|]. split; [|done].
    by destruct (_sections self !! "general").
  - destruct (has_section self "general"); simpl; [|done].
    destruct (section_pop self "general" key) as [e|[self1 r]] eqn:Hpop; [done|].
    intros Hrest. apply section_pop_general in Hpop as (Hd & Hg & Ho).
    apply IH in Hrest as (Hd' & Hg' & Ho').
    split; [congruence|]. split.
    + rewrite Hg', Hg. by destruct (_sections self !! "general").
    + intros sect Hne. rewrite Ho', Ho; done.
Qed.

Lemma lookup_delete_all (keys : list string) (opts : gmap string string) (k : string) :
  foldl (λ opts key, delete key opts) opts keys !! k
  = if decide (k ∈ keys) then None else opts !! k.
Proof.
  revert opts. induction keys as [|key keys IH]; intros opts; cbn [foldl].
  - destruct (decide (k ∈ [])) as [H|]; [|done]. by apply elem_of_nil in H.
  - rewrite IH.
    destruct (decide (k ∈ keys)) as [Hin|Hout];
      destruct (decide (k ∈ key :: keys)) as [Hin'|Hout']; try done.
    + exfalso. apply Hout'. by right.
    + apply elem_of_cons in Hin' as [->|?]; [|done]. apply lookup_delete_eq.
    + apply lookup_delete_ne. intros ->. apply Hout'. by left.
Qed.

(** [__init__] taken apart: what was read, the two sections made sure of,
    the deprecated keys popped. *)
Lemma init_inv (data_dir : string) (fs : filesystem) (st : StateConfig) :
  __init__ data_dir fs = inr st →
  ∃ self,
    read parse empty fs (os_path.join data_dir "state") = inr self
    ∧ _filename st = os_path.join data_dir "state"
    ∧ _defaults (parser st) = _defaults self
    ∧ _sections (parser st) !! "general"
      = Some (foldl (λ opts key, delete key opts)
                (default ∅ (_sections self !! "general")) deleted_keys)
    ∧ _sections (parser st) !! "geometry"
      = Some (default ∅ (_sections self !! "geometry"))
    ∧ ∀ sect, sect ≠ "general" → sect ≠ "geometry" →
        _sections (parser st) !! sect = _sections self !! sect.
Proof.
  unfold StateConfig.__init__.
  destruct (read parse empty fs _) as [e|self] eqn:Hread; [done|].
  rewrite add_sections_general_geometry.
  destruct (pop_keys _ deleted_keys) as [e|self'] eqn:Hpop; [done|].
  intros [= <-]. simpl. exists self.
  apply pop_keys_general in Hpop as (Hd & Hg & Ho). simpl in *.
  split; [done|]. split; [done|]. split; [done|].
  split; [|split].
  - rewrite Hg, !ensure_section_lookup.
    by destruct (_sections self !! "general").
  - rewrite Ho by done. rewrite !ensure_section_lookup.
    by destruct (_sections self !! "geometry").
  - intros sect H1 H2. rewrite Ho by done. rewrite !ensure_section_lookup.
    destruct (_sections self !! sect); [done|].
    by rewrite !decide_False.
Qed.



(** C8. After [__init__] the sections [general] and [geometry] both exist.
    Making sure of them never raises, whatever the file held: a section
    that is there already is kept as it is. A section the file did not
    have is empty. With no file, or an empty one, [__init__] returns the
    store made of these two empty sections. *)
Theorem init_sections_exist (data_dir : string) (fs : filesystem) :
  (∀ self, ∃ self',
      add_sections self ["general"; "geometry"] = inr self'
      ∧ _defaults self' = _defaults self
      ∧ ∀ sect, _sections self' !! sect
          = match _sections self !! sect with
            | Some opts => Some opts
            | None => if decide (sect ∈ ["general"; "geometry"])
                      then Some ∅ else None
            end)
  ∧ (∀ st, __init__ data_dir fs = inr st →
       is_Some (_sections (parser st) !! "general")
       ∧ is_Some (_sections (parser st) !! "geometry")
       ∧ ∀ self sect,
           read parse empty fs (os_path.join data_dir "state") = inr self →
           sect ∈ ["general"; "geometry"] →
           _sections self !! sect = None →
           _sections (parser st) !! sect = Some ∅)
  ∧ (files fs !! os_path.join data_dir "state" = None
     ∨ (files fs !! os_path.join data_dir "state" = Some (Content "")
        ∧ parse empty "" = inr empty) →
     __init__ data_dir fs
     = inr {| parser := {| _defaults := ∅;
                           _sections := {[ "general" := ∅; "geometry" := ∅ ]} |};
              _filename := os_path.join data_dir "state" |}).
Proof.
  split; [|split].
  - intros self. eexists. split; [apply add_sections_general_geometry|].
    split; [done|]. intros sect. simpl. rewrite !ensure_section_lookup.
    destruct (_sections self !! sect); [done|].
    destruct (decide (sect = "general")) as [->|H1]; [done|].
    destruct (decide (sect = "geometry")) as [->|H2]; [done|].
    rewrite decide_False; [done|].
    intros [?|[?|[]%elem_of_nil]%elem_of_cons]%elem_of_cons; done.
  - intros st Hinit.
    destruct (init_inv _ _ _ Hinit) as (self & Hread & _ & _ & Hgen & Hgeo & _).
    split; [by rewrite Hgen|]. split; [by rewrite Hgeo|].
    intros self' sect Hread' Hsect Hnone.
    rewrite Hread in Hread'. injection Hread' as <-.
    apply elem_of_cons in Hsect as [->|Hsect].
    + rewrite Hgen, Hnone. done.
    + apply elem_of_cons in Hsect as [->|[]%elem_of_nil].
      by rewrite Hgeo, Hnone.
  - intros Hfile.
    assert (Hread : read parse empty fs (os_path.join data_dir "state") = inr empty).
    { unfold read, read_file. by destruct Hfile as [->|[-> ->]]. }
    unfold StateConfig.__init__. rewrite Hread. by vm_compute.
Qed.


End StateConfig_properties.

(** The sample state file: the deprecated keys go, the version stays. *)
Example sample_state_init :
  StateConfig.__init__ Sample.parse Sample.before_get Sample.data_dir
    {| files := {[ Sample.state_file := Content Sample.state_text ]}; writes := [] |}
  = inr {| StateConfig.parser :=
             {| configparser._defaults := ∅;
                configparser._sections :=
                  {[ "general" := {[ "version" := "1.0.0" ]}; "geometry" := ∅ ]} |};
           StateConfig._filename := Sample.state_file |}.
Proof. by vm_compute. Qed.

(** ** ConfigAPI and read_config_py *)
Section ConfigAPI_properties.
Import ConfigAPI.

Variables Config KeyConfig value : Type.
Variable get_obj : Config → string → Config * (Py.exc + value).
Variable set_obj : Config → string → value → Config * (Py.exc + unit).
Variable keyconfig_bind :
  KeyConfig → string → string → string → bool → KeyConfig * (Py.exc + unit).
Variable keyconfig_unbind : KeyConfig → string → string → KeyConfig * (Py.exc + unit).
Variable update_mutables : Config → Config.
Variable config_dir : string.
Variable format_exc : Py.exc → string.
Variable compile : string → string → Py.exc + script value.

Local Abbreviation exec :=
  (ConfigAPI.exec get_obj set_obj keyconfig_bind keyconfig_unbind).
Local Abbreviation read_config_py :=
  (ConfigAPI.read_config_py get_obj set_obj keyconfig_bind keyconfig_unbind
     update_mutables config_dir format_exc compile).
Local Abbreviation world := (ConfigAPI.world Config KeyConfig).

Implicit Types (w : world) (api : ConfigAPI) (e : Py.exc).

(** The descriptor [_handle_error] records. *)
Local Abbreviation while_desc action name e :=
  (ErrorDesc (while_text action name) (CauseExc e) None).

Lemma set_instance_id w : set_instance (instance w) w = w.
Proof. by destruct w. Qed.

Lemma set_key_instance_id w : set_key_instance (key_instance w) w = w.
Proof. by destruct w. Qed.

(** [_handle_error] on a body that raised a [configexc.Error]. *)
Lemma _handle_error_config_Error {A} api (action name : string) e :
  Py.is_config_Error e = true →
  _handle_error (A := A) api action name (inl e)
  = (append_error (while_desc action name e) api, inr None).
Proof. intros He. unfold _handle_error. by rewrite He. Qed.

(** [_handle_error] adds nothing when the body returned, and at most one
    descriptor of its own making when it raised. *)
Lemma _handle_error_errors {A} api api' (action name : string)
    (body : Py.exc + A) (r : Py.exc + option A) :
  _handle_error api action name body = (api', r) →
  load_autoconfig api' = load_autoconfig api
  ∧ (errors api' = errors api
     ∨ ∃ e, errors api' = (errors api ++ [while_desc action name e])%list).
Proof.
  unfold _handle_error. destruct body as [e|a]; [|by intros [= <- <-]; auto].
  destruct (Py.is_config_Error e); intros [= <- <-]; eauto.
Qed.

(** What a facade method does when the call it wraps raises a
    [configexc.Error], whatever the models are: it appends the one
    descriptor [While <action> '<name>'], returns [None] to the script
    instead of raising, and the script goes on from there. The facade
    changes nothing in the models itself: they are as the call left them. *)
Lemma facade_records_config_Error api w :
  (∀ name c e,
     get_obj (instance w) name = (c, inl e) → Py.is_config_Error e = true →
     let api' := append_error
       (ErrorDesc ("While getting '" ++ name ++ "'") (CauseExc e) None) api in
     get get_obj api w name = (api', set_instance c w, inr None)
     ∧ ∀ k, exec (Get name k) api w = exec (k (inr None)) api' (set_instance c w))
  ∧ (∀ name v c e,
     set_obj (instance w) name v = (c, inl e) → Py.is_config_Error e = true →
     let api' := append_error
       (ErrorDesc ("While setting '" ++ name ++ "'") (CauseExc e) None) api in
     set set_obj api w name v = (api', set_instance c w, inr None)
     ∧ ∀ k, exec (Set_ name v k) api w = exec (k (inr None)) api' (set_instance c w))
  ∧ (∀ key command mode force kc e,
     keyconfig_bind (key_instance w) key command mode force = (kc, inl e) →
     Py.is_config_Error e = true →
     let api' := append_error
       (ErrorDesc ("While binding '" ++ key ++ "'") (CauseExc e) None) api in
     bind keyconfig_bind api w key command mode force
     = (api', set_key_instance kc w, inr None)
     ∧ ∀ k, exec (Bind key command mode force k) api w
            = exec (k (inr None)) api' (set_key_instance kc w))
  ∧ (∀ key mode kc e,
     keyconfig_unbind (key_instance w) key mode = (kc, inl e) →
     Py.is_config_Error e = true →
     let api' := append_error
       (ErrorDesc ("While unbinding '" ++ key ++ "'") (CauseExc e) None) api in
     unbind keyconfig_unbind api w key mode
     = (api', set_key_instance kc w, inr None)
     ∧ ∀ k, exec (Unbind key mode k) api w
            = exec (k (inr None)) api' (set_key_instance kc w)).
Proof.
  split; [|split; [|split]].
  - intros name c e Hcall He api'.
    assert (Hget : get get_obj api w name = (api', set_instance c w, inr None)).
    { unfold get. rewrite Hcall. by rewrite _handle_error_config_Error. }
    split; [done|]. intros k. cbn [ConfigAPI.exec]. by rewrite Hget.
  - intros name v c e Hcall He api'.
    assert (Hset : set set_obj api w name v = (api', set_instance c w, inr None)).
    { unfold set. rewrite Hcall. by rewrite _handle_error_config_Error. }
    split; [done|]. intros k. cbn [ConfigAPI.exec]. by rewrite Hset.
  - intros key command mode force kc e Hcall He api'.
    assert (Hbind : bind keyconfig_bind api w key command mode force
                    = (api', set_key_instance kc w, inr None)).
    { unfold bind. rewrite Hcall. by rewrite _handle_error_config_Error. }
    split; [done|]. intros k. cbn [ConfigAPI.exec]. by rewrite Hbind.
  - intros key mode kc e Hcall He api'.
    assert (Hunbind : unbind keyconfig_unbind api w key mode
                      = (api', set_key_instance kc w, inr None)).
    { unfold unbind. rewrite Hcall. by rewrite _handle_error_config_Error. }
    split; [done|]. intros k. cbn [ConfigAPI.exec]. by rewrite Hunbind.
Qed.

(** Running a script only ever appends to the error list, and what it
    appends are descriptors made by [_handle_error]. *)
Lemma exec_errors (code : script value) api w api' w' (r : option Py.exc) :
  exec code api w = (api', w', r) →
  ∃ new, errors api' = (errors api ++ new)%list
         ∧ Forall (λ d, ∃ action name e, d = while_desc action name e) new.
Proof.
  assert (Hstep : ∀ {A} api0 api1 api2 (action name : string)
            (body : Py.exc + A) (r0 : Py.exc + option A),
            _handle_error api0 action name body = (api1, r0) →
            (∃ new, errors api2 = (errors api1 ++ new)%list
               ∧ Forall (λ d, ∃ action name e, d = while_desc action name e) new) →
            ∃ new, errors api2 = (errors api0 ++ new)%list
               ∧ Forall (λ d, ∃ action name e, d = while_desc action name e) new).
  { intros A api0 api1 api2 action name body r0 Hh (new & Hnew & Hall).
    apply _handle_error_errors in Hh as [_ [Hsame|[e He]]].
    - exists new. by rewrite <- Hsame.
    - exists (while_desc action name e :: new). split.
      + rewrite Hnew, He. by rewrite <- app_assoc.
      + constructor; eauto. }
  revert api w.
  induction code as [|e|name k IH|name v k IH|key command mode force k IH
                     |key mode k IH|b k IH|f k IH]; intros api w; cbn [ConfigAPI.exec].
  - intros [= <- <- <-]. exists []. by rewrite app_nil_r.
  - intros [= <- <- <-]. exists []. by rewrite app_nil_r.
  - unfold get. destruct (get_obj _ _) as [c r0].
    destruct (_handle_error _ _ _ _) as [api1 r1] eqn:Hh.
    intros Hexec. apply IH in Hexec. by eapply Hstep.
  - unfold set. destruct (set_obj _ _ _) as [c r0].
    destruct (_handle_error _ _ _ _) as [api1 r1] eqn:Hh.
    intros Hexec. apply IH in Hexec. by eapply Hstep.
  - unfold bind. destruct (keyconfig_bind _ _ _ _ _) as [c r0].
    destruct (_handle_error _ _ _ _) as [api1 r1] eqn:Hh.
    intros Hexec. apply IH in Hexec. by eapply Hstep.
  - unfold unbind. destruct (keyconfig_unbind _ _ _) as [c r0].
    destruct (_handle_error _ _ _ _) as [api1 r1] eqn:Hh.
    intros Hexec. apply IH in Hexec. by eapply Hstep.
  - intros Hexec. by apply IH in Hexec.
  - intros Hexec. by apply IH in Hexec.
Qed.

(** None of the descriptors of [_handle_error] reads "Unhandled exception". *)
Lemma filter_unhandled_while (new : list ConfigErrorDesc) :
  Forall (λ d, ∃ action name e, d = while_desc action name e) new →
  filter (λ d, text d = "Unhandled exception") new = [].
Proof.
  induction 1 as [|d new (action & name & e & ->) _ IH]; [done|].
  rewrite filter_cons_False; [done|]. simpl. discriminate.
Qed.

(** [read_config_py] from the point where it has settled on a file. *)
Lemma read_config_py_path (filename : option string) fs w (path : string) :
  script_file config_dir filename fs = Some path →
  read_config_py filename fs w
  = match read_file fs path with
    | inl e =>
        if Py.is_OSError e
        then (insert_config_dir config_dir w,
              Raises (ConfigFileErrors (os_path.basename path)
                [ErrorDesc ("Error while reading " ++ os_path.basename path)
                           (CauseExc e) None]))
        else (insert_config_dir config_dir w, Raises (Propagated e))
    | inr source =>
        match compile source path with
        | inl e =>
            if Py.is_ValueError_or_TypeError e
            then (insert_config_dir config_dir w,
                  Raises (ConfigFileErrors (os_path.basename path)
                    [ErrorDesc "Error while compiling" (CauseExc e) None]))
            else if Py.is_SyntaxError e
            then (insert_config_dir config_dir w,
                  Raises (ConfigFileErrors (os_path.basename path)
                    [ErrorDesc "Syntax Error" (CauseExc e) (Some (format_exc e))]))
            else (insert_config_dir config_dir w, Raises (Propagated e))
        | inr code =>
            match exec code __init__ (insert_config_dir config_dir w) with
            | (api, w', Some e) =>
                if Py.is_Exception e
                then (finalize update_mutables (set_sys_path (sys_path w) w'),
                      Returns (append_error
                        (ErrorDesc "Unhandled exception" (CauseExc e)
                                   (Some (format_exc e))) api))
                else (w', Raises (Propagated e))
            | (api, w', None) =>
                (finalize update_mutables (set_sys_path (sys_path w) w'),
                 Returns api)
            end
        end
    end.
Proof.
  intros Hpath. unfold ConfigAPI.read_config_py. by rewrite Hpath.
Qed.

(** With no file name given and no default file, nothing happens. *)
Lemma read_config_py_no_file (filename : option string) fs w :
  script_file config_dir filename fs = None →
  read_config_py filename fs w = (w, Returns __init__).
Proof. intros Hnone. unfold ConfigAPI.read_config_py. by rewrite Hnone. Qed.

(** Whenever [read_config_py] returns, [sys.path] is what it was. *)
Lemma read_config_py_returns_sys_path (filename : option string) fs w w' api :
  read_config_py filename fs w = (w', Returns api) → sys_path w' = sys_path w.
Proof.
  destruct (script_file config_dir filename fs) as [path|] eqn:Hpath.
  - rewrite (read_config_py_path _ _ _ _ Hpath).
    destruct (read_file fs path) as [e|source].
    { by destruct (Py.is_OSError e). }
    destruct (compile source path) as [e|code].
    { destruct (Py.is_ValueError_or_TypeError e); [done|].
      by destruct (Py.is_SyntaxError e). }
    destruct (exec code __init__ (insert_config_dir config_dir w)) as [[api1 w1] [e|]].
    + destruct (Py.is_Exception e); [|done]. by intros [= <- <-].
    + by intros [= <- <-].
  - rewrite (read_config_py_no_file _ _ _ Hpath). by intros [= <- <-].
Qed.

(** When it raises the aggregate error, for a file it could not read or
    compile, [sys.path] is left with the config directory on it. *)
Lemma read_config_py_raises_sys_path (filename : option string) fs w w'
    (basename : string) (errs : list ConfigErrorDesc) :
  read_config_py filename fs w = (w', Raises (ConfigFileErrors basename errs)) →
  w' = insert_config_dir config_dir w.
Proof.
  destruct (script_file config_dir filename fs) as [path|] eqn:Hpath.
  - rewrite (read_config_py_path _ _ _ _ Hpath).
    destruct (read_file fs path) as [e|source].
    { destruct (Py.is_OSError e); by intros [= <-]. }
    destruct (compile source path) as [e|code].
    { destruct (Py.is_ValueError_or_TypeError e); [by intros [= <-]|].
      destruct (Py.is_SyntaxError e); by intros [= <-]. }
    destruct (exec code __init__ (insert_config_dir config_dir w)) as [[api1 w1] [e|]]; [|done].
    by destruct (Py.is_Exception e).
  - by rewrite (read_config_py_no_file _ _ _ Hpath).
Qed.

(** C6, as the code has it. When the body of the script raises an
    exception that derives from [Exception], [read_config_py] does not
    raise: it returns the facade, whose error list is what the script's
    calls had recorded followed by one "Unhandled exception" descriptor
    carrying the exception and the formatted traceback, the only descriptor
    with that text. [finalize] has run on the models as the script left
    them when it raised, so what the script did before is still applied,
    and [sys.path] is restored. *)
Theorem read_config_py_catches_Exception (filename : option string) fs w
    (path source : string) (code : script value) api1 w1 e :
  script_file config_dir filename fs = Some path →
  read_file fs path = inr source →
  compile source path = inr code →
  exec code __init__ (insert_config_dir config_dir w) = (api1, w1, Some e) →
  Py.is_Exception e = true →
  let unhandled :=
    ErrorDesc "Unhandled exception" (CauseExc e) (Some (format_exc e)) in
  ∃ w' api',
    read_config_py filename fs w = (w', Returns api')
    ∧ errors api' = (errors api1 ++ [unhandled])%list
    ∧ load_autoconfig api' = load_autoconfig api1
    ∧ length (filter (λ d, text d = "Unhandled exception") (errors api')) = 1
    ∧ instance w' = update_mutables (instance w1)
    ∧ key_instance w' = key_instance w1
    ∧ sys_path w' = sys_path w.
Proof.
  intros Hpath Hread Hcompile Hexec He unhandled.
  eexists _, _. split.
  { rewrite (read_config_py_path _ _ _ _ Hpath), Hread, Hcompile, Hexec, He.
    reflexivity. }
  simpl. do 2 (split; [done|]). split; [|done].
  apply exec_errors in Hexec as (new & -> & Hnew). simpl.
  rewrite !filter_app, (filter_unhandled_while _ Hnew). done.
Qed.

End ConfigAPI_properties.

(** ** The facade on the configuration models *)
Section Facade_on_config.
Import ConfigAPI.

Variable value : Type.
Variable DATA : gset string.
Variable valid : string → value → bool.

Local Abbreviation Config := (config.Config value).
Local Abbreviation KeyConfig := config.KeyConfig.
Local Abbreviation get_obj := (config.get_obj value).
Local Abbreviation set_obj := (config.set_obj value DATA valid).
Local Abbreviation exec :=
  (ConfigAPI.exec get_obj set_obj config.keyconfig_bind config.keyconfig_unbind).
Local Abbreviation world := (ConfigAPI.world Config KeyConfig).

Implicit Types (w : world) (api : ConfigAPI) (e : Py.exc).

(** Every failure of the models is a [configexc.Error] raised before
    anything is changed. *)
Lemma get_obj_raises (c c' : Config) (name : string) e :
  get_obj c name = (c', inl e) →
  c' = c ∧ Py.is_config_Error e = true ∧ c !! name = None.
Proof.
  unfold config.get_obj. destruct (c !! name); [done|]. by intros [= <- <-].
Qed.

Lemma set_obj_raises (c c' : Config) (name : string) (v : value) e :
  set_obj c name v = (c', inl e) →
  c' = c ∧ Py.is_config_Error e = true ∧ (name ∉ DATA ∨ valid name v = false).
Proof.
  unfold config.set_obj. case_bool_decide as Hname.
  - destruct (valid name v) eqn:Hv; [done|]. intros [= <- <-]. auto.
  - intros [= <- <-]. auto.
Qed.

Lemma bind_raises (k k' : KeyConfig) (key command mode : string) (force : bool) e :
  config.keyconfig_bind k key command mode force = (k', inl e) →
  k' = k ∧ Py.is_config_Error e = true ∧ force = false ∧ is_Some (k !! (mode, key)).
Proof.
  unfold config.keyconfig_bind. destruct force; [done|]. simpl.
  case_bool_decide as Hbound; [|done]. by intros [= <- <-].
Qed.

Lemma unbind_raises (k k' : KeyConfig) (key mode : string) e :
  config.keyconfig_unbind k key mode = (k', inl e) →
  k' = k ∧ Py.is_config_Error e = true ∧ k !! (mode, key) = None.
Proof.
  unfold config.keyconfig_unbind. case_bool_decide as Hbound; [done|].
  intros [= <- <-]. split; [done|]. split; [done|]. by apply eq_None_not_Some.
Qed.

(** C7. Each facade operation is fault-isolated. On the configuration
    models, whenever the call a facade method wraps fails, the failure is a
    [configexc.Error]; the method appends the one descriptor
    [While <action> '<name>'] to the error list, does not raise but returns
    [None] to the script, and leaves the world, the live configuration
    model and the key bindings in it, exactly as it was; the script goes on
    from there with its next calls. Setting an option that is not in the
    registry is such a failure. The descriptor goes to the end of the list
    and nothing else of the facade changes. *)
Theorem facade_fault_isolated api w :
  (∀ name c e,
     get_obj (instance w) name = (c, inl e) →
     let api' := append_error
       (ErrorDesc ("While getting '" ++ name ++ "'") (CauseExc e) None) api in
     Py.is_config_Error e = true
     ∧ get get_obj api w name = (api', w, inr None)
     ∧ ∀ k, exec (Get name k) api w = exec (k (inr None)) api' w)
  ∧ (∀ name v c e,
     set_obj (instance w) name v = (c, inl e) →
     let api' := append_error
       (ErrorDesc ("While setting '" ++ name ++ "'") (CauseExc e) None) api in
     Py.is_config_Error e = true
     ∧ set set_obj api w name v = (api', w, inr None)
     ∧ ∀ k, exec (Set_ name v k) api w = exec (k (inr None)) api' w)
  ∧ (∀ key command mode force kc e,
     config.keyconfig_bind (key_instance w) key command mode force = (kc, inl e) →
     let api' := append_error
       (ErrorDesc ("While binding '" ++ key ++ "'") (CauseExc e) None) api in
     Py.is_config_Error e = true
     ∧ bind config.keyconfig_bind api w key command mode force = (api', w, inr None)
     ∧ ∀ k, exec (Bind key command mode force k) api w = exec (k (inr None)) api' w)
  ∧ (∀ key mode kc e,
     config.keyconfig_unbind (key_instance w) key mode = (kc, inl e) →
     let api' := append_error
       (ErrorDesc ("While unbinding '" ++ key ++ "'") (CauseExc e) None) api in
     Py.is_config_Error e = true
     ∧ unbind config.keyconfig_unbind api w key mode = (api', w, inr None)
     ∧ ∀ k, exec (Unbind key mode k) api w = exec (k (inr None)) api' w)
  ∧ (∀ name v, name ∉ DATA →
     ∃ e, set set_obj api w name v
          = (append_error
               (ErrorDesc ("While setting '" ++ name ++ "'") (CauseExc e) None) api,
             w, inr None))
  ∧ ∀ d, errors (append_error d api) = (errors api ++ [d])%list
         ∧ load_autoconfig (append_error d api) = load_autoconfig api.
Proof.
  destruct (facade_records_config_Error _ _ _ get_obj set_obj
              config.keyconfig_bind config.keyconfig_unbind api w)
    as (Hget & Hset & Hbind & Hunbind).
  split; [|split; [|split; [|split; [|split]]]].
  - intros name c e Hcall api'.
    destruct (get_obj_raises _ _ _ _ Hcall) as (-> & He & _).
    pose proof (Hget name _ e Hcall He) as H. cbv zeta in H.
    rewrite set_instance_id in H. by destruct H.
  - intros name v c e Hcall api'.
    destruct (set_obj_raises _ _ _ _ _ Hcall) as (-> & He & _).
    pose proof (Hset name v _ e Hcall He) as H. cbv zeta in H.
    rewrite set_instance_id in H. by destruct H.
  - intros key command mode force kc e Hcall api'.
    destruct (bind_raises _ _ _ _ _ _ _ Hcall) as (-> & He & _).
    pose proof (Hbind key command mode force _ e Hcall He) as H. cbv zeta in H.
    rewrite set_key_instance_id in H. by destruct H.
  - intros key mode kc e Hcall api'.
    destruct (unbind_raises _ _ _ _ _ Hcall) as (-> & He & _).
    pose proof (Hunbind key mode _ e Hcall He) as H. cbv zeta in H.
    rewrite set_key_instance_id in H. by destruct H.
  - intros name v Hname.
    destruct (set_obj (instance w) name v) as [c [e|[]]] eqn:Hcall.
    + destruct (set_obj_raises _ _ _ _ _ Hcall) as (-> & He & _).
      pose proof (Hset name v _ e Hcall He) as H. cbv zeta in H.
      rewrite set_instance_id in H. exists e. by destruct H.
    + unfold config.set_obj in Hcall.
      by rewrite bool_decide_eq_false_2 in Hcall.
  - done.
Qed.

End Facade_on_config.

(** The sample scripts. One that sets an unknown option and binds a key
    twice: two descriptors, the configuration untouched, the first binding
    kept, [sys.path] restored. *)
Example sample_script_unknown :
  Sample.read_config_py (Some Sample.config_py)
    (Sample.script_disk Sample.script_unknown_text) Sample.world
  = ({| ConfigAPI.sys_path := ConfigAPI.sys_path Sample.world;
        ConfigAPI.instance := ConfigAPI.instance Sample.world;
        ConfigAPI.key_instance := {[ ("normal", "x") := "cmd-a" ]} |},
     Returns
       {| ConfigAPI.load_autoconfig := true;
          ConfigAPI.errors :=
            [ErrorDesc "While setting 'unknown-option'"
               (CauseExc (Py.Exc Py.ConfigError "No option 'unknown-option'")) None;
             ErrorDesc "While binding 'x'"
               (CauseExc (Py.Exc Py.ConfigError "Duplicate key x")) None] |}).
Proof. by vm_compute. Qed.

(** One that sets an option and then raises. *)
Example sample_script_raise :
  Sample.read_config_py (Some Sample.config_py)
    (Sample.script_disk Sample.script_raise_text) Sample.world
  = ({| ConfigAPI.sys_path := ConfigAPI.sys_path Sample.world;
        ConfigAPI.instance := {[ "zoom.default" := YInt 200 ]};
        ConfigAPI.key_instance := ∅ |},
     Returns
       {| ConfigAPI.load_autoconfig := true;
          ConfigAPI.errors :=
            [ErrorDesc "Unhandled exception"
               (CauseExc (Py.Exc Py.RuntimeError "boom"))
               (Some (Sample.format_exc (Py.Exc Py.RuntimeError "boom")))] |}).
Proof. by vm_compute. Qed.

(** C6 as it is worded does not hold for every exception: the script that
    calls [sys.exit(1)] raises [SystemExit], which [read_config_py] does not
    catch. It raises it on, returns no facade, records no descriptor and
    does not get to [finalize]. *)
Lemma read_config_py_lets_SystemExit_through :
  Sample.compile Sample.script_exit_text Sample.config_py = inr Sample.script_exit
  ∧ (ConfigAPI.exec Sample.get_obj Sample.set_obj Sample.keyconfig_bind
       Sample.keyconfig_unbind Sample.script_exit ConfigAPI.__init__
       (ConfigAPI.insert_config_dir Sample.config_dir
          Sample.world)).2
    = Some (Py.Exc Py.SystemExit "1")
  ∧ (Sample.read_config_py (Some Sample.config_py)
       (Sample.script_disk Sample.script_exit_text) Sample.world).2
    = Raises (Propagated (Py.Exc Py.SystemExit "1"))
  ∧ ¬ ∃ api,
        (Sample.read_config_py (Some Sample.config_py)
           (Sample.script_disk Sample.script_exit_text) Sample.world).2
        = Returns api.
Proof.
  split; [by vm_compute|]. split; [by vm_compute|]. split; [by vm_compute|].
  intros [api Hret]. vm_compute in Hret. discriminate.
Qed.

Lemma read_config_py_catches_Exception_witness :
  ∃ w' api',
    Sample.read_config_py (Some Sample.config_py)
      (Sample.script_disk Sample.script_raise_text) Sample.world
    = (w', Returns api')
    ∧ ConfigAPI.errors api'
      = [ErrorDesc "Unhandled exception"
           (CauseExc (Py.Exc Py.RuntimeError "boom"))
           (Some (Sample.format_exc (Py.Exc Py.RuntimeError "boom")))]
    ∧ ConfigAPI.instance w' !! "zoom.default" = Some (YInt 200).
Proof.
  destruct (read_config_py_catches_Exception
              Sample.Config Sample.KeyConfig yaml
              Sample.get_obj Sample.set_obj Sample.keyconfig_bind
              Sample.keyconfig_unbind Sample.update_mutables Sample.config_dir
              Sample.format_exc Sample.compile
              (Some Sample.config_py)
              (Sample.script_disk Sample.script_raise_text) Sample.world
              Sample.config_py Sample.script_raise_text Sample.script_raise
              ConfigAPI.__init__
              {| ConfigAPI.sys_path := Sample.config_dir
                                       :: ConfigAPI.sys_path Sample.world;
                 ConfigAPI.instance := {[ "zoom.default" := YInt 200 ]};
                 ConfigAPI.key_instance := ∅ |}
              (Py.Exc Py.RuntimeError "boom"))
    as (w' & api' & Hrun & Herrors & _ & _ & Hinstance & _).
  - done.
  - by vm_compute.
  - by vm_compute.
  - by vm_compute.
  - done.
  - exists w', api'. split; [exact Hrun|]. split; [exact Herrors|].
    rewrite Hinstance. by vm_compute.
Defined.

(** C1 fails on the paths that raise. A [config.py] with a syntax error, or
    one that cannot be read: [read_config_py] raises the aggregate error
    and leaves the config directory at the front of [sys.path]. *)
Theorem read_config_py_error_leaves_sys_path :
  Sample.read_config_py (Some Sample.config_py)
    (Sample.script_disk Sample.script_syntax_text) Sample.world
  = (ConfigAPI.set_sys_path
       (Sample.config_dir :: ConfigAPI.sys_path Sample.world) Sample.world,
     Raises (ConfigFileErrors "config.py"
       [ErrorDesc "Syntax Error"
          (CauseExc (Py.Exc Py.SyntaxError "invalid syntax"))
          (Some (Sample.format_exc (Py.Exc Py.SyntaxError "invalid syntax")))]))
  ∧ Sample.read_config_py (Some Sample.config_py)
      {| files := {[ Sample.config_py
                     := Unreadable (Py.Exc Py.PermissionError "Permission denied") ]};
         writes := [] |} Sample.world
    = (ConfigAPI.set_sys_path
         (Sample.config_dir :: ConfigAPI.sys_path Sample.world) Sample.world,
       Raises (ConfigFileErrors "config.py"
         [ErrorDesc "Error while reading config.py"
            (CauseExc (Py.Exc Py.PermissionError "Permission denied")) None]))
  ∧ ConfigAPI.sys_path
      (Sample.read_config_py (Some Sample.config_py)
         (Sample.script_disk Sample.script_syntax_text) Sample.world).1
    ≠ ConfigAPI.sys_path Sample.world.
Proof.
  split; [by vm_compute|]. split; [by vm_compute|].
  vm_compute. discriminate.
Qed.

(** ** The theorems at the sample inputs *)

(** A document whose root is a sequence: the aggregate error. *)
Lemma load_raises_ConfigFileErrors_witness :
  ∃ errors,
    (YamlConfig.load Sample.DATA Sample.yaml_load Sample.store
       {| files := {[ Sample.autoconfig := Content "- a
- b
" ]}; writes := [] |}).2
    = Raises (ConfigFileErrors "autoconfig.yml" errors).
Proof.
  apply (proj1 (load_raises_ConfigFileErrors Sample.DATA Sample.yaml_load
                  Sample.store _)).
  right. exists (YSeq [YStr "a"; YStr "b"]). split; [by vm_compute|].
  right. by left.
Defined.

(** The stale document: [ui.legacy] is dropped, and a later set of another
    option does not bring it back into what is written. *)
Lemma load_drops_unknown_witness :
  YamlConfig._values
    (YamlConfig.load Sample.DATA Sample.yaml_load Sample.store Sample.disk_stale).1
    !! "ui.legacy" = None
  ∧ ∃ values,
      YamlConfig._save Sample.yaml_dump
        (YamlConfig.set_all
           (YamlConfig.load Sample.DATA Sample.yaml_load Sample.store
              Sample.disk_stale).1
           [("zoom.default", YInt 200)]) Sample.disk_stale
      = write_file Sample.autoconfig
          (YamlConfig.header ++ Sample.yaml_dump
             (YMap (<["config_version" := YInt YamlConfig.VERSION]>
                    (<["global" := YMap values]> ∅)))) Sample.disk_stale
      ∧ values !! "ui.legacy" = None.
Proof.
  destruct (proj2 (proj2 (load_drops_unknown Sample.DATA Sample.yaml_load
                            Sample.yaml_dump Sample.store Sample.disk_stale))
              (<["config_version" := YInt 1]>
                 (<["global" := YMap (<["ui.legacy" := YBool true]> Sample.doc_global)]> ∅))
              (<["ui.legacy" := YBool true]> Sample.doc_global))
    as [_ Hkey]; [by vm_compute|by vm_compute|].
  destruct (Hkey "ui.legacy") as [Hgone Hsave]; [compute_done|].
  split; [exact Hgone|].
  destruct (Hsave [("zoom.default", YInt 200)] Sample.disk_stale) as [_ [Hno|Hyes]].
  - repeat constructor. simpl. discriminate.
  - exfalso. apply (f_equal writes) in Hno. vm_compute in Hno. discriminate.
  - exact Hyes.
Defined.

(** A fresh store saves nothing; after one set it writes its file. *)
Lemma save_writes_iff_dirty_witness :
  YamlConfig._save Sample.yaml_dump Sample.store Sample.disk = Sample.disk
  ∧ writes (YamlConfig._save Sample.yaml_dump
              (YamlConfig.__setitem__ Sample.store "zoom.default" (YInt 200))
              Sample.disk)
    = [Sample.autoconfig].
Proof.
  destruct (save_writes_iff_dirty Sample.DATA Sample.yaml_load Sample.yaml_dump
              Sample.store Sample.disk Sample.disk "zoom.default" (YInt 200))
    as (Hclean & _ & _ & _ & _ & Hwrites & _).
  split; [by apply Hclean|exact Hwrites].
Defined.

(** [config.set('unknown-option', 5)]: one descriptor, [None] returned, the
    world as it was. *)
Lemma facade_fault_isolated_witness :
  ConfigAPI.set Sample.set_obj ConfigAPI.__init__ Sample.world
    "unknown-option" (YInt 5)
  = ({| ConfigAPI.load_autoconfig := true;
        ConfigAPI.errors :=
          [ErrorDesc "While setting 'unknown-option'"
             (CauseExc (Py.Exc Py.ConfigError "No option 'unknown-option'")) None] |},
     Sample.world, inr None).
Proof.
  destruct (facade_fault_isolated yaml Sample.DATA (λ _ _, true)
              ConfigAPI.__init__ Sample.world) as (_ & Hset & _).
  destruct (Hset "unknown-option" (YInt 5) (ConfigAPI.instance Sample.world)
              (Py.Exc Py.ConfigError "No option 'unknown-option'") eq_refl)
    as (_ & Hcall & _).
  exact Hcall.
Defined.

(** No state file: the two sections, empty. *)
Lemma init_sections_exist_witness :
  StateConfig.__init__ Sample.parse Sample.before_get Sample.data_dir
    {| files := ∅; writes := [] |}
  = inr {| StateConfig.parser :=
             {| configparser._defaults := ∅;
                configparser._sections := {[ "general" := ∅; "geometry" := ∅ ]} |};
           StateConfig._filename := Sample.state_file |}.
Proof.
  rewrite (proj2 (proj2 (init_sections_exist Sample.parse Sample.before_get
                           Sample.data_dir {| files := ∅; writes := [] |})));
    [done|by left].
Defined.



(** * Further properties *)

(** ** YamlConfig as a container *)
Section YamlConfig_container.
Import YamlConfig.

Variable DATA : gset string.
Variable yaml_load : string → Py.exc + yaml.
Variable yaml_dump : yaml → string.

Local Abbreviation load := (YamlConfig.load DATA yaml_load).
Local Abbreviation _save := (YamlConfig._save yaml_dump).
Local Abbreviation delete_unknown := (YamlConfig.delete_unknown DATA).

Lemma __contains___spec (self : YamlConfig) (name : string) :
  __contains__ self name = true ↔ is_Some (_values self !! name).
Proof. apply bool_decide_eq_true. Qed.

(** X1. What [__setitem__] stores, [__getitem__] and [__contains__] find:
    the name set reads back as the value set, a second set of the name
    overwrites the first, and every other name reads and tests as before.
    A name that is not contained raises [KeyError] with that name, and only
    such a name does; a fresh store contains no name. *)
Theorem setitem_getitem (self : YamlConfig) (name : string) (value : yaml) :
  __getitem__ (__setitem__ self name value) name = inr value
  ∧ __contains__ (__setitem__ self name value) name = true
  ∧ (∀ value', __setitem__ (__setitem__ self name value') name value
               = __setitem__ self name value)
  ∧ (∀ other, other ≠ name →
       __getitem__ (__setitem__ self name value) other = __getitem__ self other
       ∧ __contains__ (__setitem__ self name value) other
         = __contains__ self other)
  ∧ (__contains__ self name = false
     ↔ __getitem__ self name = inl (Py.Exc Py.KeyError name))
  ∧ (__contains__ self name = true ↔ ∃ v, __getitem__ self name = inr v)
  ∧ ∀ config_dir, __contains__ (__init__ config_dir) name = false.
Proof.
  split; [unfold __getitem__; simpl; by rewrite lookup_insert_eq|].
  split; [apply __contains___spec; simpl; by rewrite lookup_insert_eq|].
  split; [intros value'; unfold __setitem__; simpl; by rewrite insert_insert_eq|].
  split.
  { intros other Hne. unfold __getitem__, __contains__. simpl.
    by rewrite lookup_insert_ne. }
  split; [|split].
  - unfold __contains__, __getitem__. rewrite bool_decide_eq_false.
    destruct (_values self !! name) as [v|]; split; try done.
    intros H. exfalso. apply H. by eexists.
  - rewrite __contains___spec. unfold __getitem__.
    destruct (_values self !! name) as [v|].
    + split; intros _; by eexists.
    + split; [by intros [? ?]|by intros [? [=]]].
  - intros config_dir. unfold __contains__, __init__. simpl.
    apply bool_decide_eq_false. rewrite lookup_empty. by intros [? ?].
Qed.

(** X2. Iterating over the store yields the pairs of the mapping, each
    name once: a pair is yielded exactly when [__getitem__] of its name
    returns its value. After a load that read a document, every name
    yielded is a known option. *)
Theorem iter_items (self : YamlConfig) (fs : filesystem) :
  NoDup (__iter__ self).*1
  ∧ (∀ name value,
       (name, value) ∈ __iter__ self ↔ __getitem__ self name = inr value)
  ∧ ((load self fs).2 = Returns None →
     ∀ name value, (name, value) ∈ __iter__ (load self fs).1 → name ∈ DATA).
Proof.
  split; [apply NoDup_fst_map_to_list|]. split.
  - intros name value. unfold __iter__, __getitem__.
    rewrite elem_of_map_to_list.
    destruct (_values self !! name) as [v|]; split; try done.
    + by intros [= ->].
    + by intros [= ->].
  - intros Hret name value Hin. unfold __iter__ in Hin.
    apply elem_of_map_to_list in Hin.
    pose proof (load_inv DATA yaml_load self fs) as H.
    destruct (YamlConfig.load DATA yaml_load self fs) as [self' [[?|]|?]];
      simplify_eq/=.
    destruct H as (top & global_obj & _ & _ & ->). simpl in Hin.
    rewrite lookup_delete_unknown in Hin. by case_decide.
Qed.

(** X3. The loop of [load] that deletes unknown values keeps the entry of
    every known option with its value and removes every other entry;
    running it again changes nothing; and it leaves the mapping as it is
    exactly when all its keys are known options. *)
Theorem delete_unknown_spec (global_obj : gmap string yaml) :
  (∀ name, delete_unknown global_obj !! name
           = if decide (name ∈ DATA) then global_obj !! name else None)
  ∧ delete_unknown (delete_unknown global_obj) = delete_unknown global_obj
  ∧ delete_unknown global_obj ⊆ global_obj
  ∧ (delete_unknown global_obj = global_obj ↔ dom global_obj ⊆ DATA).
Proof.
  split; [apply lookup_delete_unknown|]. split; [|split].
  - apply map_eq. intros k. rewrite !lookup_delete_unknown. by case_decide.
  - apply map_subseteq_spec. intros k v. rewrite lookup_delete_unknown.
    by case_decide.
  - split; [|apply (delete_unknown_id DATA yaml_load)].
    intros Heq k [v Hk]%elem_of_dom. rewrite <- Heq in Hk.
    rewrite lookup_delete_unknown in Hk. by case_decide.
Qed.

End YamlConfig_container.

(** ** YamlConfig and its file *)
Section YamlConfig_files.
Import YamlConfig.

Variable DATA : gset string.
Variable yaml_load : string → Py.exc + yaml.
Variable yaml_dump : yaml → string.

Local Abbreviation load := (YamlConfig.load DATA yaml_load).
Local Abbreviation _save := (YamlConfig._save yaml_dump).
Local Abbreviation delete_unknown := (YamlConfig.delete_unknown DATA).

(** X4. [load] takes nothing from the store but its file name: two stores
    on the same file end a load the same way, and when that load read a
    document they are left equal, whatever they held before. Loading twice
    from the same files is loading once. *)
Theorem load_depends_on_file_only (self other : YamlConfig) (fs : filesystem) :
  _filename self = _filename other →
  (load self fs).2 = (load other fs).2
  ∧ ((load self fs).2 = Returns None → (load self fs).1 = (load other fs).1)
  ∧ load (load self fs).1 fs = load self fs.
Proof.
  intros Hname.
  assert (Hagree : ∀ a b : YamlConfig, _filename a = _filename b →
            (load a fs).2 = (load b fs).2
            ∧ ((load a fs).2 = Returns None → (load a fs).1 = (load b fs).1)).
  { intros a b Hab. unfold YamlConfig.load. rewrite Hab.
    destruct (open_yaml_load yaml_load fs (_filename b)) as [e|v].
    - destruct (Py.is_FileNotFoundError e); [done|].
      destruct (Py.is_OSError e); [done|]. by destruct (Py.is_YAMLError e).
    - destruct (getitem v "global") as [e|g].
      + destruct (Py.is_KeyError e); [done|]. by destruct (Py.is_TypeError e).
      + by destruct (is_dict g). }
  destruct (Hagree self other Hname) as [H2 H1]. do 2 (split; [done|]).
  pose proof (load_inv DATA yaml_load self fs) as H.
  destruct (YamlConfig.load DATA yaml_load self fs) as [self' [[m|]|r]] eqn:Hload;
    simpl in *.
  - by subst self'.
  - destruct H as (top & global_obj & Hopen & Hglobal & ->).
    by apply (load_document DATA yaml_load
                {| _filename := _filename self;
                   _values := delete_unknown global_obj;
                   _dirty := Some false |} fs top global_obj).
  - by subst self'.
Qed.

(** X5. [_save] never clears the dirty flag: a store that is dirty is
    written at every [_save], not only at the first. What a second [_save]
    writes is what the first wrote, so the files are the same after one
    [_save] and after two. *)
Theorem save_twice (self : YamlConfig) (fs : filesystem) :
  files (_save self (_save self fs)) = files (_save self fs)
  ∧ (_dirty self = Some true →
     writes (_save self (_save self fs))
     = _filename self :: _filename self :: writes fs)
  ∧ (_dirty self ≠ Some true → _save self (_save self fs) = fs).
Proof.
  destruct (decide (_dirty self = Some true)) as [Hd|Hd].
  - rewrite !(_save_dirty yaml_dump _ _ Hd). simpl.
    split; [by rewrite insert_insert_eq|]. by split.
  - rewrite !(_save_clean yaml_dump _ _ Hd). by split.
Qed.

(** X6. What [_save] writes, [load] reads back: when the parser returns the
    document the serializer was given, a load from the files a dirty store
    was saved to leaves, in any store on that file, the saved mapping
    without its unknown options, with the dirty flag cleared; all of the
    mapping, when all its keys are known. *)
Theorem save_load_round_trip (self other : YamlConfig) (fs : filesystem) :
  _dirty self = Some true →
  _filename other = _filename self →
  yaml_load (header ++ yaml_dump (save_data self)) = inr (save_data self) →
  load other (_save self fs)
  = ({| _filename := _filename self;
        _values := delete_unknown (_values self);
        _dirty := Some false |}, Returns None)
  ∧ (dom (_values self) ⊆ DATA →
     _values (load other (_save self fs)).1 = _values self)
  ∧ _save (load other (_save self fs)).1 (_save self fs) = _save self fs.
Proof.
  intros Hd Hname Hparse.
  assert (Hload : load other (_save self fs)
    = ({| _filename := _filename self;
          _values := delete_unknown (_values self);
          _dirty := Some false |}, Returns None)).
  { rewrite <- Hname.
    apply (load_document DATA yaml_load other _
             (<["config_version" := YInt VERSION]>
                (<["global" := YMap (_values self)]> ∅))).
    - rewrite (_save_dirty yaml_dump _ _ Hd).
      unfold open_yaml_load, read_file, write_file. simpl.
      rewrite Hname, lookup_insert_eq. exact Hparse.
    - by rewrite lookup_insert_ne, lookup_insert_eq. }
  rewrite Hload. simpl. split; [done|]. split.
  - apply (delete_unknown_id DATA yaml_load).
  - by apply _save_clean.
Qed.

(** X7. The descriptor a failed [load] carries tells the failures apart:
    "While reading" with the I/O exception, "While parsing" with the YAML
    exception, and "While loading data" with one of three messages for a
    top level without [global], a top level that is no dict and a [global]
    that is no dict. None has a traceback. An exception of any other class
    is not wrapped and goes on as it is. *)
Theorem load_error_descriptors (self : YamlConfig) (fs : filesystem) (r : raised) :
  (load self fs).2 = Raises r →
  (∃ e, open_yaml_load yaml_load fs (_filename self) = inl e
        ∧ Py.is_FileNotFoundError e = false
        ∧ ((Py.is_OSError e = true
            ∧ r = ConfigFileErrors "autoconfig.yml"
                    [ErrorDesc "While reading" (CauseExc e) None])
           ∨ (Py.is_OSError e = false ∧ Py.is_YAMLError e = true
              ∧ r = ConfigFileErrors "autoconfig.yml"
                      [ErrorDesc "While parsing" (CauseExc e) None])
           ∨ (Py.is_OSError e = false ∧ Py.is_YAMLError e = false
              ∧ r = Propagated e)))
  ∨ (∃ v msg, open_yaml_load yaml_load fs (_filename self) = inr v
        ∧ r = ConfigFileErrors "autoconfig.yml"
                [ErrorDesc "While loading data" (CauseMsg msg) None]
        ∧ ((msg = "Toplevel object does not contain 'global' key"
            ∧ ∃ top, v = YMap top ∧ top !! "global" = None)
           ∨ (msg = "Toplevel object is not a dict" ∧ is_dict v = None)
           ∨ (msg = "'global' object is not a dict"
              ∧ ∃ top g, v = YMap top ∧ top !! "global" = Some g
                         ∧ is_dict g = None))).
Proof.
  destruct (load_cases DATA yaml_load self fs)
    as [(e & Ho & Hnf & ->)|[(e & Ho & Hnf & Hos & ->)|[(e & Ho & Hnf & Hos & Hy & ->)|
        [(e & Ho & Hnf & Hos & Hy & ->)|[(top & Ho & Hg & ->)|[(v & Ho & Hd & ->)|
        [(top & g & Ho & Hg & Hd & ->)|(top & g & Ho & Hg & ->)]]]]]]];
    simpl; intros [= <-]; unfold load_error.
  - left. exists e. split; [done|]. split; [done|]. by left.
  - left. exists e. split; [done|]. split; [done|]. right. by left.
  - left. exists e. split; [done|]. split; [done|]. right. by right.
  - right. eexists _, _. split; [done|]. split; [done|]. left.
    split; [done|]. by exists top.
  - right. eexists _, _. split; [done|]. split; [done|]. right. by left.
  - right. eexists _, _. split; [done|]. split; [done|]. right. right.
    split; [done|]. by exists top, g.
Qed.

End YamlConfig_files.

Lemma load_depends_on_file_only_witness :
  YamlConfig.load Sample.DATA Sample.yaml_load Sample.store_set Sample.disk_stale
  = YamlConfig.load Sample.DATA Sample.yaml_load Sample.store Sample.disk_stale.
Proof.
  destruct (load_depends_on_file_only Sample.DATA Sample.yaml_load
              Sample.store_set Sample.store Sample.disk_stale)
    as (Hend & Hstore & _); [by vm_compute|].
  apply injective_projections; [|exact Hend].
  apply Hstore. by vm_compute.
Defined.

Lemma save_load_round_trip_witness :
  YamlConfig.load Sample.DATA Sample.yaml_load_saved Sample.store
    (YamlConfig._save Sample.yaml_dump_doc Sample.store_set
       {| files := ∅; writes := [] |})
  = ({| YamlConfig._filename := Sample.autoconfig;
        YamlConfig._values := Sample.doc_global;
        YamlConfig._dirty := Some false |}, Returns None).
Proof.
  destruct (save_load_round_trip Sample.DATA Sample.yaml_load_saved
              Sample.yaml_dump_doc Sample.store_set Sample.store
              {| files := ∅; writes := [] |})
    as (Hload & _ & _); [done|done|by vm_compute|].
  rewrite Hload. by vm_compute.
Defined.

Lemma load_error_descriptors_witness :
  ∃ e, (YamlConfig.load Sample.DATA Sample.yaml_load Sample.store
          {| files := {[ Sample.autoconfig := Content ": :" ]}; writes := [] |}).2
       = Raises (ConfigFileErrors "autoconfig.yml"
                   [ErrorDesc "While parsing" (CauseExc e) None]).
Proof.
  destruct (load_error_descriptors Sample.DATA Sample.yaml_load Sample.store
              {| files := {[ Sample.autoconfig := Content ": :" ]}; writes := [] |}
              (ConfigFileErrors "autoconfig.yml"
                 [ErrorDesc "While parsing"
                    (CauseExc (Py.Exc Py.YAMLError "could not parse")) None]))
    as [(e & _ & _ & _)|(v & msg & Hopen & _)]; [by vm_compute| |].
  - by eexists.
  - vm_compute in Hopen. discriminate.
Defined.

(** ** StateConfig: what else the constructor does *)
Section StateConfig_more.
Import configparser StateConfig.

Variable parse : ConfigParser → string → Py.exc + ConfigParser.
Variable before_get : string → string → string → gmap string string → interpolated.
Variable write : ConfigParser → string.
Variable before_set : string → string → string → Py.exc + string.

Local Abbreviation section_pop := (configparser.section_pop before_get).
Local Abbreviation pop_keys := (StateConfig.pop_keys before_get).
Local Abbreviation __init__ := (StateConfig.__init__ parse before_get).
Local Abbreviation _save := (StateConfig._save write).
Local Abbreviation init := (StateConfig.init parse before_get before_set).

(** The store of two empty sections. *)
Local Abbreviation blank data_dir :=
  {| parser := {| _defaults := ∅;
                  _sections := {[ "general" := ∅; "geometry" := ∅ ]} |};
     _filename := os_path.join data_dir "state" |}.

(** Every way a [pop] on [general] can end. *)
Lemma section_pop_cases (self : ConfigParser) (opts : gmap string string) (key : string) :
  _sections self !! "general" = Some opts →
  section_pop self "general" key
  = match opts !! key, _defaults self !! key with
    | Some v, _ =>
        match before_get "general" key v (opts ∪ _defaults self) with
        | Interpolated v' =>
            inr ({| _defaults := _defaults self;
                    _sections := <["general" := delete key opts]> (_sections self) |},
                 Some v')
        | InterpolationFails msg => inl (Py.Exc Py.InterpolationError msg)
        end
    | None, Some v =>
        match before_get "general" key v (opts ∪ _defaults self) with
        | Interpolated _ => inl (Py.Exc Py.KeyError key)
        | InterpolationFails msg => inl (Py.Exc Py.InterpolationError msg)
        end
    | None, None => inr (self, None)
    end.
Proof.
  intros Hopts. unfold configparser.section_pop, has_option, get, remove_option.
  change ((String.eqb "general" "" || String.eqb "general" default_section)%bool)
    with false.
  cbv iota. rewrite Hopts.
  destruct (opts !! key) as [v|] eqn:Hown.
  - rewrite (bool_decide_eq_true_2 (is_Some (Some v))) by by eexists.
    simpl. rewrite (lookup_union_Some_l _ _ _ _ Hown).
    by destruct (before_get _ _ _ _).
  - rewrite (bool_decide_eq_false_2 (is_Some None)) by by intros [? ?].
    simpl. destruct (_defaults self !! key) as [v|] eqn:Hdef.
    + rewrite (bool_decide_eq_true_2 (is_Some (Some v))) by by eexists.
      simpl. rewrite lookup_union_r by done. rewrite Hdef.
      by destruct (before_get _ _ _ _).
    + rewrite (bool_decide_eq_false_2 (is_Some None)) by by intros [? ?].
      done.
Qed.

(** The parser the loop over [deleted_keys] starts from. *)
Lemma init_unfold (data_dir : string) (fs : filesystem) (self : ConfigParser) :
  read parse empty fs (os_path.join data_dir "state") = inr self →
  __init__ data_dir fs
  = match pop_keys {| _defaults := _defaults self;
                      _sections := ensure_section "geometry"
                                     (ensure_section "general" (_sections self)) |}
            deleted_keys with
    | inl e => inl e
    | inr self' => inr {| parser := self';
                          _filename := os_path.join data_dir "state" |}
    end.
Proof.
  intros Hread. unfold StateConfig.__init__.
  by rewrite Hread, add_sections_general_geometry.
Qed.

Lemma ensured_general (sections : gmap string (gmap string string)) :
  ensure_section "geometry" (ensure_section "general" sections) !! "general"
  = Some (default ∅ (sections !! "general")).
Proof. rewrite !ensure_section_lookup. by destruct (sections !! "general"). Qed.

(** X8. The constructor changes nothing of what it read but the deprecated
    keys of [general]: the options of the [DEFAULT] section, the options of
    [geometry] and every other section are what the file held. *)
Theorem init_keeps_rest (data_dir : string) (fs : filesystem) (st : StateConfig) :
  __init__ data_dir fs = inr st →
  ∃ self,
    read parse empty fs (os_path.join data_dir "state") = inr self
    ∧ _filename st = os_path.join data_dir "state"
    ∧ _defaults (parser st) = _defaults self
    ∧ _sections (parser st) !! "geometry"
      = Some (default ∅ (_sections self !! "geometry"))
    ∧ (∀ sect, sect ≠ "general" → sect ≠ "geometry" →
         _sections (parser st) !! sect = _sections self !! sect)
    ∧ ∀ opts key, _sections self !! "general" = Some opts →
        key ∉ deleted_keys →
        ∃ opts', _sections (parser st) !! "general" = Some opts'
                 ∧ opts' !! key = opts !! key.
Proof.
  intros Hinit.
  destruct (init_inv _ _ _ _ _ Hinit) as (self & Hread & Hf & Hd & Hgen & Hgeo & Ho).
  exists self. do 5 (split; [done|]).
  intros opts key Hopts Hkey. eexists. split; [exact Hgen|].
  rewrite lookup_delete_all, decide_False by done. by rewrite Hopts.
Qed.

(** X9. A state file that cannot be opened or read for an I/O reason
    (missing, no permission, a directory) is skipped: the store is the one
    of two empty sections. Any other exception from reading it, and any
    exception of the parser, leaves the constructor as it is. *)
Theorem init_unreadable (data_dir : string) (fs : filesystem) :
  (∀ e, read_file fs (os_path.join data_dir "state") = inl e →
        Py.is_OSError e = true →
        __init__ data_dir fs = inr (blank data_dir))
  ∧ (∀ e, read_file fs (os_path.join data_dir "state") = inl e →
          Py.is_OSError e = false →
          __init__ data_dir fs = inl e)
  ∧ (∀ s e, read_file fs (os_path.join data_dir "state") = inr s →
            parse empty s = inl e → Py.is_OSError e = false →
            __init__ data_dir fs = inl e).
Proof.
  split; [|split].
  - intros e Hfile He.
    rewrite (init_unfold data_dir fs empty); [by vm_compute|].
    unfold read. by rewrite Hfile, He.
  - intros e Hfile He. unfold StateConfig.__init__, read. by rewrite Hfile, He.
  - intros s e Hfile Hparse He. unfold StateConfig.__init__, read.
    by rewrite Hfile, Hparse, He.
Qed.

(** The loop over [deleted_keys] up to a key, when the keys before it are
    nowhere to be found. *)
Lemma pop_keys_reach (self : ConfigParser) (opts : gmap string string) (key : string) :
  _sections self !! "general" = Some opts →
  key ∈ deleted_keys →
  (∀ k, k ∈ deleted_keys → k ≠ key →
        opts !! k = None ∧ _defaults self !! k = None) →
  pop_keys self deleted_keys
  = match section_pop self "general" key with
    | inl e => inl e
    | inr (self', _) =>
        pop_keys self' (if decide (key = "fooled")
                        then ["backend-warning-shown"] else [])
    end.
Proof.
  intros Hopts Hkey Hrest.
  assert (Hsec : has_section self "general" = true).
  { apply bool_decide_eq_true. by rewrite Hopts. }
  apply elem_of_cons in Hkey as [->|Hkey].
  - cbn [StateConfig.pop_keys deleted_keys]. by rewrite Hsec.
  - apply elem_of_cons in Hkey as [->|[]%elem_of_nil].
    destruct (Hrest "fooled") as [Hown Hdef]; [by left|done|].
    cbn [StateConfig.pop_keys deleted_keys]. rewrite Hsec. cbn [negb]. cbv iota.
    rewrite (section_pop_cases self opts "fooled" Hopts), Hown, Hdef.
    cbn [StateConfig.pop_keys]. rewrite Hsec. cbn [negb]. cbv iota.
    destruct (section_pop self "general" "backend-warning-shown")
      as [e|[self' r]]; [done|]. by rewrite decide_False.
Qed.

(** X10. A deprecated key that the [DEFAULT] section supplies and [general]
    does not have of its own stops the constructor, whatever its value: the
    [pop] finds the key through the defaults and reads its value; when
    interpolation accepts the value, the key cannot be deleted from the
    section and [KeyError] of the key comes out, and when interpolation
    rejects the value, the interpolation error comes out. (The other
    deprecated key is taken to be absent, so that the loop gets to this
    one.) *)
Theorem init_DEFAULT_key (data_dir : string) (fs : filesystem)
    (self : ConfigParser) (key v : string) :
  read parse empty fs (os_path.join data_dir "state") = inr self →
  key ∈ deleted_keys →
  (∀ k, k ∈ deleted_keys → k ≠ key →
        default ∅ (_sections self !! "general") !! k = None
        ∧ _defaults self !! k = None) →
  _defaults self !! key = Some v →
  default ∅ (_sections self !! "general") !! key = None →
  __init__ data_dir fs
  = inl (match before_get "general" key v
                 (default ∅ (_sections self !! "general") ∪ _defaults self) with
         | Interpolated _ => Py.Exc Py.KeyError key
         | InterpolationFails msg => Py.Exc Py.InterpolationError msg
         end).
Proof.
  intros Hread Hkey Hrest Hdef Hown. rewrite (init_unfold _ _ _ Hread).
  set (p := {| _defaults := _defaults self; _sections := _ |}).
  assert (Hp : _sections p !! "general"
               = Some (default ∅ (_sections self !! "general")))
    by apply ensured_general.
  rewrite (pop_keys_reach p _ key Hp Hkey Hrest).
  rewrite (section_pop_cases p _ key Hp).
  change (_defaults p) with (_defaults self). rewrite Hown, Hdef.
  by destruct (before_get _ _ _ _).
Qed.

(** X11. A value of a deprecated key that interpolation rejects stops the
    constructor too: the [pop] reads the value before it deletes it, and
    the interpolation error comes out. (The other deprecated key is taken
    to be absent, so that the loop gets to this one.) *)
Theorem init_interpolation_error (data_dir : string) (fs : filesystem)
    (self : ConfigParser) (key v msg : string) :
  read parse empty fs (os_path.join data_dir "state") = inr self →
  key ∈ deleted_keys →
  (∀ k, k ∈ deleted_keys → k ≠ key →
        default ∅ (_sections self !! "general") !! k = None
        ∧ _defaults self !! k = None) →
  default ∅ (_sections self !! "general") !! key = Some v →
  before_get "general" key v
    (default ∅ (_sections self !! "general") ∪ _defaults self)
  = InterpolationFails msg →
  __init__ data_dir fs = inl (Py.Exc Py.InterpolationError msg).
Proof.
  intros Hread Hkey Hrest Hown Hint. rewrite (init_unfold _ _ _ Hread).
  set (p := {| _defaults := _defaults self; _sections := _ |}).
  assert (Hp : _sections p !! "general"
               = Some (default ∅ (_sections self !! "general")))
    by apply ensured_general.
  rewrite (pop_keys_reach p _ key Hp Hkey Hrest).
  rewrite (section_pop_cases p _ key Hp).
  change (_defaults p) with (_defaults self). by rewrite Hown, Hint.
Qed.

(** A store in which no deprecated key is left goes through the loop over
    [deleted_keys] unchanged. *)
Lemma pop_keys_nothing (keys : list string) (self : ConfigParser)
    (opts : gmap string string) :
  _sections self !! "general" = Some opts →
  (∀ k, k ∈ keys → opts !! k = None ∧ _defaults self !! k = None) →
  pop_keys self keys = inr self.
Proof.
  intros Hopts. induction keys as [|key keys IH]; intros Hnone; [done|].
  cbn [StateConfig.pop_keys].
  assert (Hsec : has_section self "general" = true).
  { apply bool_decide_eq_true. by rewrite Hopts. }
  rewrite Hsec. cbn [negb]. cbv iota.
  destruct (Hnone key) as [Hown Hdef]; [by left|].
  rewrite (section_pop_cases self opts key Hopts), Hown, Hdef.
  apply IH. intros k Hk. apply Hnone. by right.
Qed.

(** X12. A store the constructor built, once saved, is read back as it
    is: when the parser returns the sections the serializer was given and
    the [DEFAULT] section has no deprecated key, constructing the store
    anew from the files [_save] wrote gives the same store. *)
Theorem save_init_round_trip (data_dir : string) (fs0 fs : filesystem)
    (st : StateConfig) :
  __init__ data_dir fs0 = inr st →
  (∀ k, k ∈ deleted_keys → _defaults (parser st) !! k = None) →
  parse empty (write (parser st)) = inr (parser st) →
  __init__ data_dir (_save st fs) = inr st.
Proof.
  intros Hinit Hdef Hparse.
  destruct (init_inv _ _ _ _ _ Hinit) as (self & _ & Hf & _ & Hgen & Hgeo & _).
  assert (Hread : read parse empty (_save st fs) (os_path.join data_dir "state")
                  = inr (parser st)).
  { unfold read, read_file, StateConfig._save, write_file. simpl.
    by rewrite Hf, lookup_insert_eq, Hparse. }
  rewrite (init_unfold _ _ _ Hread).
  assert (Hens : ensure_section "geometry"
                   (ensure_section "general" (_sections (parser st)))
                 = _sections (parser st)).
  { apply map_eq. intros sect. rewrite !ensure_section_lookup.
    destruct (_sections (parser st) !! sect) eqn:Hs; [done|].
    destruct (decide (sect = "general")) as [->|?]; [congruence|].
    destruct (decide (sect = "geometry")) as [->|?]; [congruence|done]. }
  rewrite Hens.
  replace {| _defaults := _defaults (parser st);
             _sections := _sections (parser st) |} with (parser st)
    by by destruct (parser st).
  rewrite (pop_keys_nothing deleted_keys (parser st) _ Hgen).
  - rewrite <- Hf. by destruct st.
  - intros k Hk. split; [|by apply Hdef].
    rewrite lookup_delete_all. by rewrite decide_True.
Qed.

(** X13. [init()] binds [state] to the store it constructs and records the
    running version in [general], over whatever version the file held; the
    deprecated keys stay out and the other options of [general] stay in.
    Both settings formats are pointed at the [qsettings] directory of the
    config directory. When the constructor raises, nothing is bound and no
    path is set; when storing the version raises, [state] is bound to the
    store as constructed and no path is set. *)
Theorem init_sets_version (version data_dir config_dir : string)
    (fs : filesystem) (g : globals) :
  match init version data_dir config_dir fs g with
  | (g', None) =>
      ∃ st0 st stored opts0,
        __init__ data_dir fs = inr st0
        ∧ state g' = Some st
        ∧ _filename st = _filename st0
        ∧ _defaults (parser st) = _defaults (parser st0)
        ∧ (if String.eqb version "" then stored = version
           else before_set "general" "version" version = inr stored)
        ∧ _sections (parser st0) !! "general" = Some opts0
        ∧ _sections (parser st) = <["general" := <["version" := stored]> opts0]>
                                    (_sections (parser st0))
        ∧ (∀ key, key ∈ deleted_keys →
                  (<["version" := stored]> opts0) !! key = None)
        ∧ qsettings_paths g'
          = (IniFormat, UserScope, os_path.join config_dir "qsettings")
            :: (NativeFormat, UserScope, os_path.join config_dir "qsettings")
            :: qsettings_paths g
  | (g', Some e) =>
      qsettings_paths g' = qsettings_paths g
      ∧ ((__init__ data_dir fs = inl e ∧ state g' = state g)
         ∨ ∃ st0, __init__ data_dir fs = inr st0 ∧ state g' = Some st0)
  end.
Proof.
  unfold StateConfig.init.
  destruct (__init__ data_dir fs) as [e|st0] eqn:Hinit; [by split; [|left]|].
  destruct (init_inv _ _ _ _ _ Hinit) as (self & _ & _ & _ & Hgen & _).
  assert (Hgone : ∀ stored key, key ∈ deleted_keys →
            (<["version" := stored]>
               (foldl (λ opts key, delete key opts)
                  (default ∅ (_sections self !! "general")) deleted_keys))
            !! key = None).
  { intros stored key Hkey. rewrite lookup_insert_ne.
    - rewrite lookup_delete_all. by rewrite decide_True.
    - intros <-. revert Hkey. compute_done. }
  unfold has_section. rewrite Hgen.
  rewrite (bool_decide_eq_true_2 (is_Some (Some _))) by by eexists.
  cbn [negb]. cbv iota. unfold set.
  change ((String.eqb "general" "" || String.eqb "general" default_section)%bool)
    with false.
  destruct (String.eqb version "") eqn:Hv.
  - cbv iota. rewrite Hgen. eexists st0, _, version, _.
    do 7 (split; [done|]). split; [apply Hgone|done].
  - destruct (before_set "general" "version" version) as [e|stored] eqn:Hset.
    + split; [done|]. right. by exists st0.
    + cbv iota. rewrite Hgen. eexists st0, _, stored, _.
      do 7 (split; [done|]). split; [apply Hgone|done].
Qed.

End StateConfig_more.

(** ** ConfigAPI and read_config_py: the other paths *)
Section ConfigAPI_more.
Import ConfigAPI.

Variables Config KeyConfig value : Type.
Variable get_obj : Config → string → Config * (Py.exc + value).
Variable set_obj : Config → string → value → Config * (Py.exc + unit).
Variable keyconfig_bind :
  KeyConfig → string → string → string → bool → KeyConfig * (Py.exc + unit).
Variable keyconfig_unbind : KeyConfig → string → string → KeyConfig * (Py.exc + unit).
Variable update_mutables : Config → Config.
Variable config_dir : string.
Variable format_exc : Py.exc → string.
Variable compile : string → string → Py.exc + script value.

Local Abbreviation exec :=
  (ConfigAPI.exec get_obj set_obj keyconfig_bind keyconfig_unbind).
Local Abbreviation read_config_py :=
  (ConfigAPI.read_config_py get_obj set_obj keyconfig_bind keyconfig_unbind
     update_mutables config_dir format_exc compile).
Local Abbreviation world := (ConfigAPI.world Config KeyConfig).

Implicit Types (w : world) (api : ConfigAPI) (e : Py.exc).

(** A descriptor one of the four facade methods records. *)
Definition facade_desc (d : ConfigErrorDesc) : Prop :=
  ∃ action name e,
    action ∈ ["getting"; "setting"; "binding"; "unbinding"]
    ∧ Py.is_config_Error e = true
    ∧ d = ErrorDesc (while_text action name) (CauseExc e) None.

(** [_handle_error] on a body that did not raise a [configexc.Error]. *)
Lemma _handle_error_through {A} api (action name : string) (body : Py.exc + A) :
  match body with
  | inr a => _handle_error api action name body = (api, inr (Some a))
  | inl e => Py.is_config_Error e = false →
             _handle_error api action name body = (api, inl e)
  end.
Proof. destruct body as [e|a]; [|done]. intros He. unfold _handle_error. by rewrite He. Qed.

(** X14. The facade swallows nothing but [configexc.Error]: when the call a
    method wraps raises any other exception, the method records no
    descriptor and the exception comes out of it into the script; when the
    call returns, the method records nothing either, and [get] returns the
    value of [get_obj]. Either way the models are as the call left them. *)
Theorem facade_passes_other_exceptions api w :
  (∀ name c r, get_obj (instance w) name = (c, r) →
     match r with
     | inr v => get get_obj api w name = (api, set_instance c w, inr (Some v))
     | inl e => Py.is_config_Error e = false →
                get get_obj api w name = (api, set_instance c w, inl e)
                ∧ ∀ k, exec (Get name k) api w
                       = exec (k (inl e)) api (set_instance c w)
     end)
  ∧ (∀ name v c r, set_obj (instance w) name v = (c, r) →
     match r with
     | inr _ => (set set_obj api w name v).1 = (api, set_instance c w)
     | inl e => Py.is_config_Error e = false →
                set set_obj api w name v = (api, set_instance c w, inl e)
                ∧ ∀ k, exec (Set_ name v k) api w
                       = exec (k (inl e)) api (set_instance c w)
     end)
  ∧ (∀ key command mode force kc r,
     keyconfig_bind (key_instance w) key command mode force = (kc, r) →
     match r with
     | inr _ => (bind keyconfig_bind api w key command mode force).1
                = (api, set_key_instance kc w)
     | inl e => Py.is_config_Error e = false →
                bind keyconfig_bind api w key command mode force
                = (api, set_key_instance kc w, inl e)
                ∧ ∀ k, exec (Bind key command mode force k) api w
                       = exec (k (inl e)) api (set_key_instance kc w)
     end)
  ∧ (∀ key mode kc r,
     keyconfig_unbind (key_instance w) key mode = (kc, r) →
     match r with
     | inr _ => (unbind keyconfig_unbind api w key mode).1
                = (api, set_key_instance kc w)
     | inl e => Py.is_config_Error e = false →
                unbind keyconfig_unbind api w key mode
                = (api, set_key_instance kc w, inl e)
                ∧ ∀ k, exec (Unbind key mode k) api w
                       = exec (k (inl e)) api (set_key_instance kc w)
     end).
Proof.
  split; [|split; [|split]].
  - intros name c [e|v] Hcall.
    + intros He.
      assert (Hget : get get_obj api w name = (api, set_instance c w, inl e)).
      { unfold get. rewrite Hcall. unfold _handle_error. by rewrite He. }
      split; [done|]. intros k. cbn [ConfigAPI.exec]. by rewrite Hget.
    + unfold get. by rewrite Hcall.
  - intros name v c [e|[]] Hcall.
    + intros He.
      assert (Hset : set set_obj api w name v = (api, set_instance c w, inl e)).
      { unfold set. rewrite Hcall. unfold _handle_error. by rewrite He. }
      split; [done|]. intros k. cbn [ConfigAPI.exec]. by rewrite Hset.
    + unfold set. by rewrite Hcall.
  - intros key command mode force kc [e|[]] Hcall.
    + intros He.
      assert (Hbind : bind keyconfig_bind api w key command mode force
                      = (api, set_key_instance kc w, inl e)).
      { unfold bind. rewrite Hcall. unfold _handle_error. by rewrite He. }
      split; [done|]. intros k. cbn [ConfigAPI.exec]. by rewrite Hbind.
    + unfold bind. by rewrite Hcall.
  - intros key mode kc [e|[]] Hcall.
    + intros He.
      assert (Hunbind : unbind keyconfig_unbind api w key mode
                        = (api, set_key_instance kc w, inl e)).
      { unfold unbind. rewrite Hcall. unfold _handle_error. by rewrite He. }
      split; [done|]. intros k. cbn [ConfigAPI.exec]. by rewrite Hunbind.
    + unfold unbind. by rewrite Hcall.
Qed.

(** Running a script appends descriptors of the facade methods, in the
    order of the calls, and nothing else. *)
Lemma exec_facade_errors (code : script value) api w api' w' (r : option Py.exc) :
  exec code api w = (api', w', r) →
  ∃ new, errors api' = (errors api ++ new)%list ∧ Forall facade_desc new.
Proof.
  assert (Hstep : ∀ {A} api0 api1 api2 (action name : string)
            (body : Py.exc + A) (r0 : Py.exc + option A),
            action ∈ ["getting"; "setting"; "binding"; "unbinding"] →
            _handle_error api0 action name body = (api1, r0) →
            (∃ new, errors api2 = (errors api1 ++ new)%list
                    ∧ Forall facade_desc new) →
            ∃ new, errors api2 = (errors api0 ++ new)%list
                   ∧ Forall facade_desc new).
  { intros A api0 api1 api2 action name body r0 Haction Hh (new & Hnew & Hall).
    unfold _handle_error in Hh. destruct body as [e|a].
    - destruct (Py.is_config_Error e) eqn:He; injection Hh as <- <-.
      + exists (ErrorDesc (while_text action name) (CauseExc e) None :: new).
        split; [rewrite Hnew; simpl; by rewrite <- app_assoc|].
        constructor; [|done]. by exists action, name, e.
      + by exists new.
    - injection Hh as <- <-. by exists new. }
  revert api w.
  induction code as [|e|name k IH|name v k IH|key command mode force k IH
                     |key mode k IH|b k IH|f k IH]; intros api w; cbn [ConfigAPI.exec].
  - intros [= <- <- <-]. exists []. by rewrite app_nil_r.
  - intros [= <- <- <-]. exists []. by rewrite app_nil_r.
  - unfold get. destruct (get_obj _ _) as [c r0].
    destruct (_handle_error _ _ _ _) as [api1 r1] eqn:Hh.
    intros Hexec. apply IH in Hexec. eapply Hstep; [|done..]. compute_done.
  - unfold set. destruct (set_obj _ _ _) as [c r0].
    destruct (_handle_error _ _ _ _) as [api1 r1] eqn:Hh.
    intros Hexec. apply IH in Hexec. eapply Hstep; [|done..]. compute_done.
  - unfold bind. destruct (keyconfig_bind _ _ _ _ _) as [c r0].
    destruct (_handle_error _ _ _ _) as [api1 r1] eqn:Hh.
    intros Hexec. apply IH in Hexec. eapply Hstep; [|done..]. compute_done.
  - unfold unbind. destruct (keyconfig_unbind _ _ _) as [c r0].
    destruct (_handle_error _ _ _ _) as [api1 r1] eqn:Hh.
    intros Hexec. apply IH in Hexec. eapply Hstep; [|done..]. compute_done.
  - intros Hexec. by apply IH in Hexec.
  - intros Hexec. by apply IH in Hexec.
Qed.

(** A call into a model that ended in a [configexc.Error]: the action, the
    name and the exception. *)
Definition failed_call {A} (action name : string) (r : Py.exc + A)
  : list (string * string * Py.exc) :=
  match r with
  | inl e => if Py.is_config_Error e then [(action, name, e)] else []
  | inr _ => []
  end.

(** What the script gets back from a facade method, given how the call
    into the model ended. *)
Definition handed_back {A} (r : Py.exc + A) : Py.exc + option A :=
  match r with
  | inl e => if Py.is_config_Error e then inr None else inl e
  | inr a => inr (Some a)
  end.

(** The calls of a script into the models that end in a
    [configexc.Error], in the order the script makes them. This follows the
    script through the models alone, with no facade and no error list. *)
Fixpoint failed_calls (code : script value) (w : world)
  : list (string * string * Py.exc) :=
  match code with
  | Done => []
  | Raise _ => []
  | Get name k =>
      let '(c, r) := get_obj (instance w) name in
      (failed_call "getting" name r
       ++ failed_calls (k (handed_back r)) (set_instance c w))%list
  | Set_ name v k =>
      let '(c, r) := set_obj (instance w) name v in
      (failed_call "setting" name r
       ++ failed_calls (k (handed_back r)) (set_instance c w))%list
  | Bind key command mode force k =>
      let '(kc, r) := keyconfig_bind (key_instance w) key command mode force in
      (failed_call "binding" key r
       ++ failed_calls (k (handed_back r)) (set_key_instance kc w))%list
  | Unbind key mode k =>
      let '(kc, r) := keyconfig_unbind (key_instance w) key mode in
      (failed_call "unbinding" key r
       ++ failed_calls (k (handed_back r)) (set_key_instance kc w))%list
  | SetLoadAutoconfig _ k => failed_calls k w
  | SetSysPath f k => failed_calls k (set_sys_path (f (sys_path w)) w)
  end.

(** The descriptor of a failed call. *)
Definition failed_desc (call : string * string * Py.exc) : ConfigErrorDesc :=
  ErrorDesc ("While " ++ call.1.1 ++ " '" ++ call.1.2 ++ "'") (CauseExc call.2) None.

(** [_handle_error] in terms of the two. *)
Lemma _handle_error_failed_call {A} api (action name : string) (body : Py.exc + A) :
  _handle_error api action name body
  = ({| load_autoconfig := load_autoconfig api;
        errors := (errors api ++ (failed_desc <$> failed_call action name body))%list |},
     handed_back body).
Proof.
  unfold _handle_error, failed_call, handed_back. destruct body as [e|a].
  - destruct (Py.is_config_Error e); [done|]. simpl. rewrite app_nil_r. by destruct api.
  - simpl. rewrite app_nil_r. by destruct api.
Qed.

(** Running a script appends the descriptors of its failed calls, in the
    order of the calls, and nothing else. *)
Lemma exec_failed_calls (code : script value) api w :
  errors (exec code api w).1.1
  = (errors api ++ (failed_desc <$> failed_calls code w))%list.
Proof.
  revert api w.
  induction code as [|e|name k IH|name v k IH|key command mode force k IH
                     |key mode k IH|b k IH|f k IH]; intros api w;
    cbn [ConfigAPI.exec failed_calls].
  - simpl. by rewrite app_nil_r.
  - simpl. by rewrite app_nil_r.
  - unfold get. destruct (get_obj _ _) as [c r0].
    rewrite _handle_error_failed_call, IH. simpl.
    by rewrite fmap_app, app_assoc.
  - unfold set. destruct (set_obj _ _ _) as [c r0].
    rewrite _handle_error_failed_call, IH. simpl.
    by rewrite fmap_app, app_assoc.
  - unfold bind. destruct (keyconfig_bind _ _ _ _ _) as [c r0].
    rewrite _handle_error_failed_call, IH. simpl.
    by rewrite fmap_app, app_assoc.
  - unfold unbind. destruct (keyconfig_unbind _ _ _) as [c r0].
    rewrite _handle_error_failed_call, IH. simpl.
    by rewrite fmap_app, app_assoc.
  - by rewrite IH.
  - by rewrite IH.
Qed.

(** X15. The error list [read_config_py] returns is exactly this: the
    descriptors of the facade calls of the script that failed with a
    [configexc.Error], one for each such call and in the order of the
    calls, each "While getting/setting/binding/unbinding '<name>'" over the
    exception of the call and without traceback; followed, when the script
    ended in an exception, by the one "Unhandled exception" descriptor over
    that exception with the formatted traceback, which is last. With no
    script file the list is empty. *)
Theorem read_config_py_returned_errors (filename : option string) fs w w' api :
  read_config_py filename fs w = (w', Returns api) →
  match script_file config_dir filename fs with
  | None => errors api = []
  | Some path =>
      ∃ source code,
        read_file fs path = inr source
        ∧ compile source path = inr code
        ∧ let w0 := insert_config_dir config_dir w in
          let calls := failed_desc <$> failed_calls code w0 in
          Forall facade_desc calls
          ∧ match (exec code __init__ w0).2 with
            | None => errors api = calls
            | Some e =>
                Py.is_Exception e = true
                ∧ errors api
                  = (calls ++ [ErrorDesc "Unhandled exception" (CauseExc e)
                                         (Some (format_exc e))])%list
            end
  end.
Proof.
  destruct (script_file config_dir filename fs) as [path|] eqn:Hpath.
  - rewrite (read_config_py_path _ _ _ _ _ _ _ _ _ _ _ _ _ _ _ Hpath).
    destruct (read_file fs path) as [e|source] eqn:Hsource.
    { by destruct (Py.is_OSError e). }
    destruct (compile source path) as [e|code] eqn:Hcode.
    { destruct (Py.is_ValueError_or_TypeError e); [done|].
      by destruct (Py.is_SyntaxError e). }
    intros Hrun. exists source, code. do 2 (split; [done|]).
    intros w0 calls.
    pose proof (exec_failed_calls code __init__ w0) as Hcalls.
    change (errors __init__) with (@nil ConfigErrorDesc) in Hcalls.
    rewrite app_nil_l in Hcalls. fold calls in Hcalls.
    fold w0 in Hrun.
    destruct (exec code __init__ w0) as [[api1 w1] r] eqn:Hexec.
    simpl in Hcalls. split.
    + apply exec_facade_errors in Hexec as (new & Hnew & Hall).
      simpl in Hnew. by rewrite <- Hcalls, Hnew.
    + cbn [snd]. destruct r as [e|].
      * destruct (Py.is_Exception e) eqn:He; [|done].
        injection Hrun as <- <-. split; [done|]. simpl. by rewrite Hcalls.
      * by injection Hrun as <- <-.
  - rewrite (read_config_py_no_file _ _ _ _ _ _ _ _ _ _ _ _ _ _ Hpath).
    by intros [= <- <-].
Qed.

(** X16. When [read_config_py] raises the aggregate error, nothing of the
    script has run: the configuration and the key bindings are untouched,
    and [sys.path] differs at most by the config directory put in front.
    The aggregate is keyed by the base name of the file and carries one
    descriptor: "Error while reading <basename>" over the I/O exception,
    "Error while compiling" over the [ValueError] or [TypeError], both
    without traceback, or "Syntax Error" over the [SyntaxError] with the
    formatted traceback. *)
Theorem read_config_py_file_error (filename : option string) fs w w'
    (basename : string) (errs : list ConfigErrorDesc)
    (H : read_config_py filename fs w
         = (w', Raises (ConfigFileErrors basename errs))) :
  ∃ path,
    script_file config_dir filename fs = Some path
    ∧ basename = os_path.basename path
    ∧ instance w' = instance w
    ∧ key_instance w' = key_instance w
    ∧ (sys_path w' = sys_path w ∨ sys_path w' = config_dir :: sys_path w)
    ∧ (config_dir ∈ sys_path w → w' = w)
    ∧ ((∃ e, read_file fs path = inl e ∧ Py.is_OSError e = true
             ∧ errs = [ErrorDesc ("Error while reading " ++ basename)
                                 (CauseExc e) None])
       ∨ (∃ source e, read_file fs path = inr source
             ∧ compile source path = inl e
             ∧ ((Py.is_ValueError_or_TypeError e = true
                 ∧ errs = [ErrorDesc "Error while compiling" (CauseExc e) None])
                ∨ (Py.is_ValueError_or_TypeError e = false
                   ∧ Py.is_SyntaxError e = true
                   ∧ errs = [ErrorDesc "Syntax Error" (CauseExc e)
                                       (Some (format_exc e))])))).
Proof.
  assert (Hw : ∀ w0 : world,
            w0 = insert_config_dir config_dir w →
            instance w0 = instance w ∧ key_instance w0 = key_instance w
            ∧ (sys_path w0 = sys_path w ∨ sys_path w0 = config_dir :: sys_path w)
            ∧ (config_dir ∈ sys_path w → w0 = w)).
  { intros w0 ->. unfold insert_config_dir. case_bool_decide as Hin.
    - do 2 (split; [done|]). split; [by left|done].
    - simpl. do 2 (split; [done|]). split; [by right|done]. }
  destruct (script_file config_dir filename fs) as [path|] eqn:Hpath.
  - revert H. rewrite (read_config_py_path _ _ _ _ _ _ _ _ _ _ _ _ _ _ _ Hpath).
    destruct (read_file fs path) as [e|source] eqn:Hread.
    { destruct (Py.is_OSError e) eqn:He; [|done]. intros [= <- <- <-].
      exists path. split; [done|]. split; [done|].
      destruct (Hw _ eq_refl) as (? & ? & ? & ?).
      do 4 (split; [done|]). left. by exists e. }
    destruct (compile source path) as [e|code] eqn:Hcompile.
    { destruct (Py.is_ValueError_or_TypeError e) eqn:Hv.
      - intros [= <- <- <-]. exists path. split; [done|]. split; [done|].
        destruct (Hw _ eq_refl) as (? & ? & ? & ?).
        do 4 (split; [done|]). right. exists source, e. split; [done|]. split; [done|]. auto.
      - destruct (Py.is_SyntaxError e) eqn:Hs; [|done].
        intros [= <- <- <-]. exists path. split; [done|]. split; [done|].
        destruct (Hw _ eq_refl) as (? & ? & ? & ?).
        do 4 (split; [done|]). right. exists source, e. split; [done|]. split; [done|]. auto. }
    destruct (exec code __init__ (insert_config_dir config_dir w))
      as [[api1 w1] [e|]]; [|done].
    by destruct (Py.is_Exception e).
  - by rewrite (read_config_py_no_file _ _ _ _ _ _ _ _ _ _ _ _ _ _ Hpath) in H.
Qed.

(** X17. Whenever [read_config_py] returns, [sys.path] is what it was
    before the call, whatever the script did to it. When there was no file
    to run, the whole world is what it was and the facade returned is a
    fresh one: no error, [load_autoconfig] set. *)
Theorem read_config_py_restores_sys_path (filename : option string) fs w w' api :
  read_config_py filename fs w = (w', Returns api) →
  sys_path w' = sys_path w
  ∧ (script_file config_dir filename fs = None →
     w' = w ∧ errors api = [] ∧ load_autoconfig api = true).
Proof.
  intros Hret. split.
  - by eapply read_config_py_returns_sys_path.
  - intros Hnone.
    rewrite (read_config_py_no_file _ _ _ _ _ _ _ _ _ _ _ _ _ _ Hnone) in Hret.
    by injection Hret as <- <-.
Qed.

(** X18. Without a file name [read_config_py] runs [config.py] of the
    config directory as if it had been named, and does nothing when there
    is no such file. A file that is named and missing is an error: the
    aggregate "Error while reading <basename>" over [FileNotFoundError]. *)
Theorem read_config_py_default_file fs w :
  read_config_py None fs w
  = (if exists_ fs (os_path.join config_dir "config.py")
     then read_config_py (Some (os_path.join config_dir "config.py")) fs w
     else (w, Returns __init__))
  ∧ ∀ path, files fs !! path = None →
      read_config_py (Some path) fs w
      = (insert_config_dir config_dir w,
         Raises (ConfigFileErrors (os_path.basename path)
           [ErrorDesc ("Error while reading " ++ os_path.basename path)
              (CauseExc (Py.Exc Py.FileNotFoundError path)) None])).
Proof.
  split.
  - unfold ConfigAPI.read_config_py, script_file.
    by destruct (exists_ fs (os_path.join config_dir "config.py")).
  - intros path Hnone. unfold ConfigAPI.read_config_py, script_file, read_file.
    by rewrite Hnone.
Qed.

End ConfigAPI_more.

(** ** The further properties at the sample inputs *)

(** The full sample state file: the foreign section and the window geometry
    come through. *)
Lemma init_keeps_rest_witness :
  ∃ st,
    StateConfig.__init__ Sample.parse_more Sample.before_get Sample.data_dir
      (Sample.state_disk Sample.state_full_text) = inr st
    ∧ configparser._sections (StateConfig.parser st) !! "inspector"
      = Some {[ "window" := "AdnQywAD" ]}
    ∧ configparser._sections (StateConfig.parser st) !! "geometry"
      = Some {[ "mainwindow" := "AdnQywAC" ]}.
Proof.
  destruct (StateConfig.__init__ Sample.parse_more Sample.before_get
              Sample.data_dir (Sample.state_disk Sample.state_full_text))
    as [e|st] eqn:Hinit; [by vm_compute in Hinit|].
  exists st. split; [done|].
  destruct (init_keeps_rest Sample.parse_more Sample.before_get Sample.data_dir
              (Sample.state_disk Sample.state_full_text) st Hinit)
    as (self & Hread & _ & _ & Hgeo & Hrest & _).
  vm_compute in Hread. injection Hread as <-.
  split; [by rewrite Hrest|exact Hgeo].
Defined.

(** A state file that may not be read is taken for a missing one. *)
Lemma init_unreadable_witness :
  StateConfig.__init__ Sample.parse Sample.before_get Sample.data_dir
    {| files := {[ Sample.state_file
                   := Unreadable (Py.Exc Py.PermissionError "Permission denied") ]};
       writes := [] |}
  = inr {| StateConfig.parser :=
             {| configparser._defaults := ∅;
                configparser._sections := {[ "general" := ∅; "geometry" := ∅ ]} |};
           StateConfig._filename := Sample.state_file |}.
Proof.
  rewrite (proj1 (init_unreadable Sample.parse Sample.before_get Sample.data_dir _)
             (Py.Exc Py.PermissionError "Permission denied")); done.
Defined.

(** [fooled] in the [DEFAULT] section only, with a value interpolation
    accepts and with one it rejects. *)
Lemma init_DEFAULT_key_witness :
  StateConfig.__init__ Sample.parse_defaults Sample.before_get Sample.data_dir
    (Sample.state_disk Sample.state_default_text)
  = inl (Py.Exc Py.KeyError "fooled")
  ∧ StateConfig.__init__ Sample.parse_defaults Sample.before_get Sample.data_dir
      (Sample.state_disk Sample.state_default_percent_text)
    = inl (Py.Exc Py.InterpolationError "bad interpolation").
Proof.
  split.
  - apply (init_DEFAULT_key Sample.parse_defaults Sample.before_get Sample.data_dir
             (Sample.state_disk Sample.state_default_text)
             {| configparser._defaults := {[ "fooled" := "1" ]};
                configparser._sections := ∅ |} "fooled" "1").
    + by vm_compute.
    + by left.
    + intros k [->|[->|[]%elem_of_nil]%elem_of_cons]%elem_of_cons Hk; [done|].
      by vm_compute.
    + by vm_compute.
    + by vm_compute.
  - apply (init_DEFAULT_key Sample.parse_defaults Sample.before_get Sample.data_dir
             (Sample.state_disk Sample.state_default_percent_text)
             {| configparser._defaults := {[ "fooled" := "%" ]};
                configparser._sections := ∅ |} "fooled" "%").
    + by vm_compute.
    + by left.
    + intros k [->|[->|[]%elem_of_nil]%elem_of_cons]%elem_of_cons Hk; [done|].
      by vm_compute.
    + by vm_compute.
    + by vm_compute.
Defined.

(** [fooled = %] in [general]. *)
Lemma init_interpolation_error_witness :
  StateConfig.__init__ Sample.parse_more Sample.before_get Sample.data_dir
    (Sample.state_disk Sample.state_percent_text)
  = inl (Py.Exc Py.InterpolationError "bad interpolation").
Proof.
  apply (init_interpolation_error Sample.parse_more Sample.before_get
           Sample.data_dir (Sample.state_disk Sample.state_percent_text)
           {| configparser._defaults := ∅;
              configparser._sections := {[ "general" := {[ "fooled" := "%" ]} ]} |}
           "fooled" "%").
  - by vm_compute.
  - by left.
  - intros k [->|[->|[]%elem_of_nil]%elem_of_cons]%elem_of_cons Hk; [done|].
    by vm_compute.
  - by vm_compute.
  - by vm_compute.
Defined.

(** The saved sample state, saved again and read back. *)
Lemma save_init_round_trip_witness :
  StateConfig.__init__ Sample.parse_more Sample.before_get Sample.data_dir
    (StateConfig._save Sample.write_saved
       {| StateConfig.parser := Sample.state_saved_parsed;
          StateConfig._filename := Sample.state_file |}
       {| files := ∅; writes := [] |})
  = inr {| StateConfig.parser := Sample.state_saved_parsed;
           StateConfig._filename := Sample.state_file |}.
Proof.
  apply (save_init_round_trip Sample.parse_more Sample.before_get
           Sample.write_saved Sample.data_dir
           (Sample.state_disk Sample.state_saved_text)).
  - by vm_compute.
  - intros k _. apply lookup_empty.
  - by vm_compute.
Defined.

(** [init()] on the full sample state file with version 1.0.0. *)
Example sample_init :
  StateConfig.init Sample.parse_more Sample.before_get Sample.before_set
    "1.0.0" Sample.data_dir Sample.config_dir
    (Sample.state_disk Sample.state_full_text)
    {| StateConfig.state := None; StateConfig.qsettings_paths := [] |}
  = ({| StateConfig.state :=
          Some {| StateConfig.parser := Sample.state_saved_parsed;
                  StateConfig._filename := Sample.state_file |};
        StateConfig.qsettings_paths :=
          [(StateConfig.IniFormat, StateConfig.UserScope,
            "/home/user/.config/qutebrowser/qsettings");
           (StateConfig.NativeFormat, StateConfig.UserScope,
            "/home/user/.config/qutebrowser/qsettings")] |}, None).
Proof. by vm_compute. Qed.

(** A [get] on the broken model: the exception comes out, nothing is
    recorded. *)
Lemma facade_passes_other_exceptions_witness :
  ConfigAPI.get Sample.get_obj_broken ConfigAPI.__init__ Sample.world "zoom.default"
  = (ConfigAPI.__init__, Sample.world, inl (Py.Exc Py.RuntimeError "broken")).
Proof.
  destruct (facade_passes_other_exceptions Sample.Config Sample.KeyConfig yaml
              Sample.get_obj_broken Sample.set_obj Sample.keyconfig_bind
              Sample.keyconfig_unbind ConfigAPI.__init__ Sample.world)
    as (Hget & _).
  destruct (Hget "zoom.default" (ConfigAPI.instance Sample.world)
              (inl (Py.Exc Py.RuntimeError "broken")) eq_refl eq_refl)
    as [Hcall _].
  rewrite Hcall. done.
Defined.

(** The script that fails two facade calls: the descriptor of the [set]
    of the unknown option, then that of the second [bind], and nothing
    after them. *)
Lemma read_config_py_returned_errors_witness :
  ∃ w' api,
    Sample.read_config_py (Some Sample.config_py)
      (Sample.script_disk Sample.script_unknown_text) Sample.world
    = (w', Returns api)
    ∧ ConfigAPI.errors api
      = [ErrorDesc "While setting 'unknown-option'"
           (CauseExc (Py.Exc Py.ConfigError "No option 'unknown-option'")) None;
         ErrorDesc "While binding 'x'"
           (CauseExc (Py.Exc Py.ConfigError "Duplicate key x")) None].
Proof.
  destruct (Sample.read_config_py (Some Sample.config_py)
              (Sample.script_disk Sample.script_unknown_text) Sample.world)
    as [w' [api|r]] eqn:Hrun; [|by vm_compute in Hrun].
  exists w', api. split; [done|].
  destruct (read_config_py_returned_errors Sample.Config Sample.KeyConfig yaml
              Sample.get_obj Sample.set_obj Sample.keyconfig_bind
              Sample.keyconfig_unbind Sample.update_mutables Sample.config_dir
              Sample.format_exc Sample.compile _ _ _ _ _ Hrun)
    as (source & code & Hsource & Hcode & _ & Herrors).
  vm_compute in Hsource. injection Hsource as <-.
  vm_compute in Hcode. injection Hcode as <-.
  exact Herrors.
Defined.

(** A named script that does not exist. *)
Lemma read_config_py_file_error_witness :
  ∃ w' errs,
    Sample.read_config_py (Some Sample.config_py)
      {| files := ∅; writes := [] |} Sample.world
    = (w', Raises (ConfigFileErrors "config.py" errs))
    ∧ ConfigAPI.instance w' = ConfigAPI.instance Sample.world
    ∧ ConfigAPI.key_instance w' = ConfigAPI.key_instance Sample.world.
Proof.
  destruct (Sample.read_config_py (Some Sample.config_py)
              {| files := ∅; writes := [] |} Sample.world)
    as [w' [api|[basename errs|e]]] eqn:Hrun;
    [by vm_compute in Hrun| |by vm_compute in Hrun].
  destruct (read_config_py_file_error Sample.Config Sample.KeyConfig yaml
              Sample.get_obj Sample.set_obj Sample.keyconfig_bind
              Sample.keyconfig_unbind Sample.update_mutables Sample.config_dir
              Sample.format_exc Sample.compile _ _ _ _ _ _ Hrun)
    as (path & Hpath & Hbase & Hinstance & Hkeys & _).
  injection Hpath as <-. exists w', errs.
  split; [by rewrite Hbase|done].
Defined.

(** The script that raises after replacing nothing: the path comes back. *)
Lemma read_config_py_restores_sys_path_witness :
  ConfigAPI.sys_path
    (Sample.read_config_py (Some Sample.config_py)
       (Sample.script_disk Sample.script_raise_text) Sample.world).1
  = ConfigAPI.sys_path Sample.world.
Proof.
  destruct (Sample.read_config_py (Some Sample.config_py)
              (Sample.script_disk Sample.script_raise_text) Sample.world)
    as [w' [api|r]] eqn:Hrun; [|by vm_compute in Hrun].
  apply (read_config_py_restores_sys_path Sample.Config Sample.KeyConfig yaml
           Sample.get_obj Sample.set_obj Sample.keyconfig_bind
           Sample.keyconfig_unbind Sample.update_mutables Sample.config_dir
           Sample.format_exc Sample.compile _ _ _ _ _ Hrun).
Defined.

(** With the sample script at the default place, no name is as good as the
    name. *)
Lemma read_config_py_default_file_witness :
  Sample.read_config_py None (Sample.script_disk Sample.script_raise_text)
    Sample.world
  = Sample.read_config_py (Some Sample.config_py)
      (Sample.script_disk Sample.script_raise_text) Sample.world.
Proof.
  unfold Sample.read_config_py.
  rewrite (proj1 (read_config_py_default_file Sample.Config Sample.KeyConfig yaml
                    Sample.get_obj Sample.set_obj Sample.keyconfig_bind
                    Sample.keyconfig_unbind Sample.update_mutables
                    Sample.config_dir Sample.format_exc Sample.compile
                    (Sample.script_disk Sample.script_raise_text) Sample.world)).
  by vm_compute.
Defined.
